(** * e3.pytest: the e3 plugin for pytest

    A shallow embedding of [src/e3/pytest.py]: the [require_tool] fixture
    factory, the [pytest_runtest_makereport] and [pytest_sessionfinish] hooks
    and the coverage path rewriter [fix_coverage_paths], together with the
    properties the specification states about them.

    Python state is threaded explicitly.  A function that can raise is a
    computation in the monad [Py S], which returns either a value or the
    exception that escaped, and the state it left behind. *)

From Stdlib Require Import ZArith Ascii String List.
From stdpp Require Import base option gmap strings list fin_maps.

Open Scope string_scope.
Open Scope list_scope.

(** ** Python strings *)

Module Str.

(** [s.startswith(p)]. *)
Fixpoint startswith (s p : string) {struct p} : bool :=
  match p, s with
  | EmptyString, _ => true
  | String _ _, EmptyString => false
  | String a p', String b s' => if Ascii.eqb a b then startswith s' p' else false
  end.

(** [s[n:]]. *)
Fixpoint drop (n : nat) (s : string) : string :=
  match n, s with
  | O, _ => s
  | S _, EmptyString => EmptyString
  | S n', String _ s' => drop n' s'
  end.

(** The last character of [s], if it has one. *)
Fixpoint last (s : string) : option ascii :=
  match s with
  | EmptyString => None
  | String a EmptyString => Some a
  | String _ s' => last s'
  end.

(** [s.replace(old, new)] for a non-empty [old]: scan from the left, and on
    every match emit [new] and skip the matched characters.  [skip] counts the
    characters of a match still to be skipped. *)
Fixpoint replace_from (skip : nat) (old new s : string) : string :=
  match s with
  | EmptyString => EmptyString
  | String c s' =>
      match skip with
      | S k => replace_from k old new s'
      | O =>
          if startswith s old
          then new +:+ replace_from (String.length old - 1) old new s'
          else String c (replace_from O old new s')
      end
  end.

Definition replace (s old new : string) : string := replace_from O old new s.

(** [c.upper()] on ASCII letters. *)
Definition upper_ascii (c : ascii) : ascii :=
  let n := nat_of_ascii c in
  if (97 <=? n)%nat && (n <=? 122)%nat then ascii_of_nat (n - 32) else c.

Fixpoint upper (s : string) : string :=
  match s with
  | EmptyString => EmptyString
  | String c s' => String (upper_ascii c) (upper s')
  end.

(** Python's whitespace, as [str.rstrip()] with no argument strips it: the
    characters [str.isspace] holds of, among the first 256. *)
Definition is_space (c : ascii) : bool :=
  let n := nat_of_ascii c in
  ((9 <=? n)%nat && (n <=? 13)%nat) || ((28 <=? n)%nat && (n <=? 32)%nat)
  || (n =? 133)%nat || (n =? 160)%nat.

Fixpoint rstrip (s : string) : string :=
  match s with
  | EmptyString => EmptyString
  | String c s' =>
      match rstrip s' with
      | EmptyString => if is_space c then EmptyString else String c EmptyString
      | r => String c r
      end
  end.

(** The lines a file opened in text mode yields when iterated.  A line ends
    at a line feed, at a carriage return, or at a carriage return followed by
    a line feed (universal newlines); each of the three is handed over as a
    single line feed, which the line keeps.  A last line with no line end is
    yielded as it is. *)
Fixpoint lines_from (cur : string) (s : string) : list string :=
  match s with
  | EmptyString => match cur with EmptyString => [] | _ => [cur] end
  | String c s' =>
      if Ascii.eqb c "010"%char
      then (cur +:+ String "010"%char EmptyString) :: lines_from EmptyString s'
      else if Ascii.eqb c "013"%char then
        match s' with
        | String c2 s'' =>
            if Ascii.eqb c2 "010"%char
            then (cur +:+ String "010"%char EmptyString) :: lines_from EmptyString s''
            else (cur +:+ String "010"%char EmptyString) :: lines_from EmptyString s'
        | EmptyString =>
            (cur +:+ String "010"%char EmptyString) :: lines_from EmptyString s'
        end
      else lines_from (cur +:+ String c EmptyString) s'
  end.

Definition lines (s : string) : list string := lines_from EmptyString s.

(** The double-quote character, for literals that contain one. *)
Definition dquote : string := String (ascii_of_nat 34) EmptyString.

End Str.

(** ** Exceptions, external calls and the monad *)

(** The exceptions the module can let escape.  [Failed] and [Skipped] are
    what [pytest.fail] and [pytest.skip] raise. *)
Inductive exn : Type :=
  | FSError (origin : string) (message : string)
  | FileNotFoundError (path : string)
  | DataError (path : string)
  | Failed (reason : string)
  | Skipped (reason : string).

Inductive result (A : Type) : Type :=
  | Ok (a : A)
  | Raise (e : exn).
Arguments Ok {A} a.
Arguments Raise {A} e.

(** What the session-finish hook asks of its collaborators, in the order it
    asks: the call of the path rewriter and the calls on the [Coverage]
    object of the coverage engine. *)
Inductive event : Type :=
  | Call_fix_coverage_paths (origin_dir new_dir cov_db : string)
  | Coverage_init (data_file : string)
  | Cov_exclude (regex : string)
  | Cov_load
  | Cov_html_report (omit : list string)
  | Cov_report (omit : list string) (precision : nat)
  | Cov_xml_report.

(** The outcome of running a computation: the value returned or the
    exception that escaped, the state left behind, and the calls made. *)
Record out (S A : Type) : Type := Out {
  res : result A;
  post : S;
  log : list event;
}.
Arguments Out {S A} res post log.
Arguments res {S A} o.
Arguments post {S A} o.
Arguments log {S A} o.

Definition Py (S A : Type) : Type := S → out S A.

Definition ret {S A} (a : A) : Py S A := λ s, Out (Ok a) s [].

Definition raise {S A} (e : exn) : Py S A := λ s, Out (Raise e) s [].

Definition emit {S} (ev : event) : Py S unit := λ s, Out (Ok tt) s [ev].

Definition bind {S A B} (m : Py S A) (k : A → Py S B) : Py S B :=
  λ s, let o := m s in
       match res o with
       | Ok a => let o' := k a (post o) in Out (res o') (post o') (log o ++ log o')
       | Raise e => Out (Raise e) (post o) (log o)
       end.

(** [try: body finally: cleanup].  The cleanup always runs.  When it raises,
    its exception is the one that escapes; otherwise the outcome of the body
    (value or exception) stands. *)
Definition try_finally {S A} (body : Py S A) (cleanup : Py S unit) : Py S A :=
  λ s, let o := body s in
       let c := cleanup (post o) in
       Out (match res c with Ok _ => res o | Raise e => Raise e end)
           (post c) (log o ++ log c).

Declare Scope py_scope.
Delimit Scope py_scope with py.
Notation "'let*' x := m 'in' k" := (bind m (λ x, k))
  (at level 10, x name, m at level 100, k at level 200) : py_scope.
Notation "m ;; k" := (bind m (λ _, k))
  (at level 100, k at level 200, right associativity) : py_scope.

(** [for x in xs: body(x)]. *)
Fixpoint for_each {S A} (xs : list A) (body : A → Py S unit) : Py S unit :=
  match xs with
  | [] => ret tt
  | x :: xs' => bind (body x) (λ _, for_each xs' body)
  end.

Definition is_ok {A} (r : result A) : bool :=
  match r with Ok _ => true | Raise _ => false end.

(** ** The coverage engine (external collaborator) *)

Module PathAliases.

(** Modelled from the spec: the coverage engine's [PathAliases] (third-party
    code, not part of the repository).  A rule is an ordered pair
    (origin-prefix, replacement-prefix); it applies to an identifier that
    starts with the origin-prefix and replaces that prefix; an identifier
    that matches no rule passes through unchanged. *)
Definition t : Type := list (string * string).

Definition empty : t := [].

Definition add (pattern result : string) (aliases : t) : t :=
  aliases ++ [(pattern, result)].

Fixpoint map (aliases : t) (path : string) : string :=
  match aliases with
  | [] => path
  | (pattern, result) :: rest =>
      if Str.startswith path pattern
      then result +:+ Str.drop (String.length pattern) path
      else map rest path
  end.

End PathAliases.

Module CoverageData.

(** Modelled from the spec: the coverage engine's [CoverageData.update]
    (third-party code, not part of the repository).  A database maps a
    measured-file identifier to its line records (the set of executed
    lines).  Every record of [other] is merged into [self] under its
    identifier as rewritten by the alias rules; records that land on the same
    identifier are combined (the union of their lines). *)
Definition merge_file (aliases : PathAliases.t)
    (path : string) (lines : gset nat) (acc : gmap string (gset nat)) :
    gmap string (gset nat) :=
  let key := PathAliases.map aliases path in
  <[key := lines ∪ default ∅ (acc !! key)]> acc.

Definition update (self other : gmap string (gset nat))
    (aliases : PathAliases.t) : gmap string (gset nat) :=
  map_fold (merge_file aliases) self other.

End CoverageData.

(** ** The file system *)

(** What a regular file holds: a coverage database the engine can load, or
    anything else (text). *)
Inductive content : Type :=
  | Database (d : gmap string (gset nat))
  | Text (s : string).

(** [CoverageData(path).read()]: a missing file is an empty database, a file
    that is not a database is an error.  [Text] at a database path stands for
    content the engine fails to load; a file of length zero, which the engine
    takes for an empty database, is [Database ∅] there and not [Text] of the
    empty string. *)
Definition CoverageData_read (path : string) :
    Py (gmap string content) (gmap string (gset nat)) :=
  λ fs, match fs !! path with
        | None => Out (Ok ∅) fs []
        | Some (Database d) => Out (Ok d) fs []
        | Some (Text _) => Out (Raise (DataError path)) fs []
        end.

(** [CoverageData(path).write()]: persist the data at [path]. *)
Definition CoverageData_write (path : string) (d : gmap string (gset nat)) :
    Py (gmap string content) unit :=
  λ fs, Out (Ok tt) (<[path := Database d]> fs) [].

(** Modelled from the spec: [e3.os.fs.mv] (its module is not among the
    sources).  The file at [source] is moved to [target] atomically; when it
    cannot be moved the call raises and nothing has changed.  In this model
    the move fails when there is no file at [source]; a move refused with the
    file in place (permissions) is [mv_permitted] below, and what
    [fix_coverage_paths] does after a failed move is stated for any move
    ([fix_coverage_paths_with]). *)
Definition mv (source target : string) : Py (gmap string content) unit :=
  λ fs, match fs !! source with
        | None => Out (Raise (FSError "mv" source)) fs []
        | Some c => Out (Ok tt) (<[target := c]> (delete source fs)) []
        end.

(** [os.unlink(path)]. *)
Definition unlink (path : string) : Py (gmap string content) unit :=
  λ fs, match fs !! path with
        | None => Out (Raise (FileNotFoundError path)) fs []
        | Some _ => Out (Ok tt) (delete path fs) []
        end.

(** [NamedTemporaryFile(dir=...)] followed by [close()]: [name] is the name
    the [tempfile] module picked (one that is not in use, in the directory of
    the database); the file is created empty and closing it deletes it. *)
Definition NamedTemporaryFile_close (name : string) :
    Py (gmap string content) string :=
  λ fs, Out (Ok name) (delete name (<[name := Text ""]> fs)) [].

(** ** [fix_coverage_paths] *)

(** [tmp] is the name [NamedTemporaryFile] comes up with.  The new
    [CoverageData(cov_db)] touches no file until [update] opens it: it then
    starts from what [cov_db] holds (nothing, after the move). *)
Definition fix_coverage_paths (origin_dir new_dir cov_db : string)
    (tmp : string) : Py (gmap string content) unit :=
  (let paths := PathAliases.add origin_dir new_dir PathAliases.empty in
   let* old_cov_file := NamedTemporaryFile_close tmp in
   try_finally
     (mv cov_db old_cov_file ;;
      let* old_coverage_data := CoverageData_read old_cov_file in
      let* new_coverage_data := CoverageData_read cov_db in
      CoverageData_write cov_db
        (CoverageData.update new_coverage_data old_coverage_data paths))
     (unlink old_cov_file))%py.

(** Modelled from the spec: [e3.os.fs.mv] under an operating system that
    may refuse the move (permissions).  [may_move] tells of which paths the
    file may be renamed; a refused move raises and changes nothing, whether
    or not the file is there. *)
Definition mv_permitted (may_move : string → bool) (source target : string) :
    Py (gmap string content) unit :=
  λ fs, if may_move source
        then mv source target fs
        else Out (Raise (FSError "mv" source)) fs [].

(** [fix_coverage_paths] with the move it calls as a parameter: the body is
    that of the source, [move] standing for [e3.os.fs.mv]. *)
Definition fix_coverage_paths_with
    (move : string → string → Py (gmap string content) unit)
    (origin_dir new_dir cov_db : string) (tmp : string) :
    Py (gmap string content) unit :=
  (let paths := PathAliases.add origin_dir new_dir PathAliases.empty in
   let* old_cov_file := NamedTemporaryFile_close tmp in
   try_finally
     (move cov_db old_cov_file ;;
      let* old_coverage_data := CoverageData_read old_cov_file in
      let* new_coverage_data := CoverageData_read cov_db in
      CoverageData_write cov_db
        (CoverageData.update new_coverage_data old_coverage_data paths))
     (unlink old_cov_file))%py.

(** ** Module globals, session and hooks *)

(** The state the hooks run in: the file system (regular files and
    directories), [os.environ], the module globals [test_errors] and
    [IN_CI_MODE], and [session.exitstatus]. *)
Record state : Type := State {
  fs : gmap string content;
  dirs : gset string;
  environ : gmap string string;
  test_errors : bool;
  IN_CI_MODE : bool;
  exitstatus : Z;
}.

(** Importing the module: [test_errors = False] and
    [IN_CI_MODE = "CI" in os.environ]. *)
Definition import_module (fs0 : gmap string content) (dirs0 : gset string)
    (environ0 : gmap string string) (exitstatus0 : Z) : state :=
  {| fs := fs0; dirs := dirs0; environ := environ0;
     test_errors := false;
     IN_CI_MODE := bool_decide (is_Some (environ0 !! "CI"));
     exitstatus := exitstatus0 |}.

Definition set_fs (fs' : gmap string content) (st : state) : state :=
  {| fs := fs'; dirs := dirs st; environ := environ st;
     test_errors := test_errors st; IN_CI_MODE := IN_CI_MODE st;
     exitstatus := exitstatus st |}.

Definition set_test_errors (b : bool) (st : state) : state :=
  {| fs := fs st; dirs := dirs st; environ := environ st;
     test_errors := b; IN_CI_MODE := IN_CI_MODE st;
     exitstatus := exitstatus st |}.

Definition set_exitstatus (z : Z) (st : state) : state :=
  {| fs := fs st; dirs := dirs st; environ := environ st;
     test_errors := test_errors st; IN_CI_MODE := IN_CI_MODE st;
     exitstatus := z |}.

Definition get {S} : Py S S := λ s, Out (Ok s) s [].

Definition modify {S} (f : S → S) : Py S unit := λ s, Out (Ok tt) (f s) [].

(** Run a file-system computation on the file system of the state. *)
Definition on_fs {A} (m : Py (gmap string content) A) : Py state A :=
  λ st, let o := m (fs st) in Out (res o) (set_fs (post o) st) (log o).

(** Truth value of a Python string. *)
Definition truthy (s : string) : bool :=
  match s with EmptyString => false | _ => true end.

Definition DEFAULT_EXCLUDE_LIST : list string :=
  [ "all: no cover";
    "if TYPE_CHECKING:";
    "@abstractmethod";
    "# os-specific";
    "defensive code";
    "assert_never()" ].

(** *** [require_tool] *)

Section RequireTool.

(** [e3.os.fs.which] is not among the sources: it is a parameter here.  It
    returns the path of the tool, or the empty string when the tool is not
    on PATH. *)
Variable which : string → string.

(** The function [require_tool] wraps as a fixture. *)
Definition wrapper (toolname : string) : Py state unit :=
  (let* st := get in
   if negb (truthy (which toolname)) then
     if IN_CI_MODE st
     then raise (Failed (toolname +:+ " not available"))
     else raise (Skipped (toolname +:+ " not available"))
   else ret tt)%py.

Definition require_tool (toolname : string) : Py state unit := wrapper toolname.

End RequireTool.

(** *** Paths *)

(** [os.path.join(a, b)] on POSIX. *)
Definition os_path_join (a b : string) : string :=
  if Str.startswith b "/" then b
  else if negb (truthy a) || bool_decide (Str.last a = Some "/"%char) then a +:+ b
  else a +:+ "/" +:+ b.

(** [p / name] for a [pathlib] path [p] and a relative [name]. *)
Definition path_div (p name : string) : string :=
  if bool_decide (Str.last p = Some "/"%char) then p +:+ name
  else p +:+ "/" +:+ name.

(** The text of a file opened in text mode.  Reading a database as text is
    outside the model: it is taken to hold no text. *)
Definition text_of (c : content) : string :=
  match c with Text s => s | Database _ => "" end.

(** [with open(path, "w") as f: f.write(s)]. *)
Definition write_text (path s : string) : Py state unit :=
  modify (λ st, set_fs (<[path := Text s]> (fs st)) st).

(** [with open(path, "a") as f: f.write(s)]. *)
Definition append_text (path s : string) : Py state unit :=
  modify (λ st,
    let old := from_option text_of "" (fs st !! path) in
    set_fs (<[path := Text (old +:+ s)]> (fs st)) st).

Definition newline : string := String "010"%char EmptyString.

(** *** [pytest_runtest_makereport] *)

(** The test report the other hooks produced ([outcome.get_result()]). *)
Record report : Type := Report {
  when : string;
  outcome : string;
  nodeid : string;
  longreprtext : string;
}.

(** [results_dir] names an existing directory: the negation of the guard
    [not results_dir or not os.path.isdir(results_dir)]. *)
Definition results_dir_ok (st : state) : bool :=
  match environ st !! "RESULTS_DIR" with
  | None => false
  | Some d => truthy d && bool_decide (d ∈ dirs st)
  end.

Definition pytest_runtest_makereport (rep : report) : Py state unit :=
  (let* st := get in
   let results_dir := environ st !! "RESULTS_DIR" in
   match results_dir with
   | None => ret tt
   | Some results_dir =>
       if negb (truthy results_dir) || negb (bool_decide (results_dir ∈ dirs st))
       then ret tt
       else if String.eqb (when rep) "call" then
         let outcome' := Str.upper (outcome rep) in
         let test_name := Str.replace (Str.replace (nodeid rep) "/" ".") "::" "--" in
         (if truthy (longreprtext rep)
          then write_text (os_path_join results_dir (test_name +:+ ".diff"))
                          (longreprtext rep)
          else ret tt) ;;
         append_text (os_path_join results_dir "results")
                     (test_name +:+ ":" +:+ outcome' +:+ newline)
       else if String.eqb (outcome rep) "failed"
         then modify (set_test_errors true)
         else ret tt
   end)%py.

(** *** [pytest_sessionfinish] *)

(** The options of [session.config] the hook reads, and its [rootpath].
    [--e3] is a flag, [cov_source] is the list the coverage plugin of pytest
    registers, [--e3-cov-rewrite] takes two arguments or is absent. *)
Record config : Type := Config {
  opt_e3 : bool;
  opt_cov_source : list string;
  opt_e3_cov_rewrite : option (string * string);
  rootpath : string;
}.

(** What the hook reads from its surroundings: [Env().build.os.name], the
    name [NamedTemporaryFile] picks, and the engine's [run:omit] option. *)
Record host : Type := Host {
  os_name : string;
  tmp_name : string;
  run_omit : list string;
}.

Definition win32_ne : string :=
  "if sys.platform != " +:+ Str.dquote +:+ "win32" +:+ Str.dquote +:+ ":".

Definition win32_eq : string :=
  "if sys.platform == " +:+ Str.dquote +:+ "win32" +:+ Str.dquote +:+ ":".

Definition pytest_sessionfinish (cfg : config) (h : host) : Py state unit :=
  (if negb (opt_e3 cfg) then ret tt
   else
     let* st := get in
     (if test_errors st then modify (set_exitstatus 3) else ret tt) ;;
     match opt_cov_source cfg with
     | [] => ret tt
     | _ :: _ =>
         let cov_file := path_div (rootpath cfg) ".coverage" in
         match opt_e3_cov_rewrite cfg with
         | Some (origin_dir, new_dir) =>
             emit (Call_fix_coverage_paths origin_dir new_dir cov_file) ;;
             on_fs (fix_coverage_paths origin_dir new_dir cov_file (tmp_name h))
         | None => ret tt
         end ;;
         let os_name := os_name h in
         emit (Coverage_init cov_file) ;;
         for_each DEFAULT_EXCLUDE_LIST (λ regex, emit (Cov_exclude regex)) ;;
         for_each
           (map (λ o, o +:+ "-only")
              (filter (λ o, o ≠ os_name)
                 ["darwin"; "linux"; "solaris"; "windows"; "bsd"; "aix"]))
           (λ regex, emit (Cov_exclude regex)) ;;
         (if bool_decide (os_name = "windows")
          then emit (Cov_exclude win32_ne)
          else emit (Cov_exclude win32_eq) ;;
               emit (Cov_exclude "unix: no cover")) ;;
         emit (Cov_exclude (os_name +:+ ": no cover")) ;;
         emit Cov_load ;;
         let omit_files := run_omit h in
         let coverage_conf_dir := path_div (path_div (rootpath cfg) "tests") "coverage" in
         let conf_file := path_div coverage_conf_dir ("omit-files-" +:+ os_name) in
         let* st := get in
         let omit_files :=
           match fs st !! conf_file with
           | Some f => omit_files ++ map Str.rstrip (Str.lines (text_of f))
           | None => omit_files
           end in
         emit (Cov_html_report omit_files) ;;
         emit (Cov_report omit_files 3) ;;
         emit Cov_xml_report
     end)%py.


(** *** A session as a sequence of calls *)

Inductive hook_call : Type :=
  | Makereport (rep : report)
  | Sessionfinish (cfg : config) (h : host)
  | Fixture (which : string → string) (toolname : string)
  | Outside (fs' : gmap string content) (dirs' : gset string)
            (environ' : gmap string string).

(** What tests and other plugins do between two calls of the module: they
    change the file system and the environment, not the module's globals. *)
Definition outside (fs' : gmap string content) (dirs' : gset string)
    (environ' : gmap string string) (st : state) : state :=
  {| fs := fs'; dirs := dirs'; environ := environ';
     test_errors := test_errors st; IN_CI_MODE := IN_CI_MODE st;
     exitstatus := exitstatus st |}.

Definition run_hook (c : hook_call) : Py state unit :=
  match c with
  | Makereport rep => pytest_runtest_makereport rep
  | Sessionfinish cfg h => pytest_sessionfinish cfg h
  | Fixture which toolname => require_tool which toolname
  | Outside fs' dirs' environ' => modify (outside fs' dirs' environ')
  end.

(** pytest goes on after a hook or a fixture raised: the state stays. *)
Fixpoint run_hooks (cs : list hook_call) (st : state) : state :=
  match cs with
  | [] => st
  | c :: cs' => run_hooks cs' (post (run_hook c st))
  end.

(** * The conftest of the test suite ([tests/tests_e3/conftest.py]) *)

(** [s.lstrip(chars)], [s.rstrip(chars)] and [s.strip(chars)], with the set
    of characters given as a test. *)
Fixpoint lstrip_by (p : ascii → bool) (s : string) : string :=
  match s with
  | EmptyString => EmptyString
  | String c s' => if p c then lstrip_by p s' else s
  end.

Fixpoint rstrip_by (p : ascii → bool) (s : string) : string :=
  match s with
  | EmptyString => EmptyString
  | String c s' =>
      match rstrip_by p s' with
      | EmptyString => if p c then EmptyString else String c EmptyString
      | r => String c r
      end
  end.

Definition strip_by (p : ascii → bool) (s : string) : string :=
  rstrip_by p (lstrip_by p s).

Definition is_dot (c : ascii) : bool := Ascii.eqb c "."%char.

(** The characters [str.strip()] removes: those [str.isspace] holds of,
    among the first 256. *)
Definition is_whitespace (c : ascii) : bool :=
  let n := nat_of_ascii c in
  ((9 <=? n)%nat && (n <=? 13)%nat) || ((28 <=? n)%nat && (n <=? 32)%nat)
  || (n =? 133)%nat || (n =? 160)%nat.

(** The characters [str.splitlines] breaks a line at. *)
Definition is_linebreak (c : ascii) : bool :=
  let n := nat_of_ascii c in
  ((10 <=? n)%nat && (n <=? 13)%nat) || ((28 <=? n)%nat && (n <=? 30)%nat)
  || (n =? 133)%nat.

(** [s.splitlines()]: the lines without their line breaks; a carriage return
    followed by a line feed is one break, and a break at the very end opens
    no further line. *)
Fixpoint splitlines_from (cur : string) (s : string) : list string :=
  match s with
  | EmptyString => match cur with EmptyString => [] | _ => [cur] end
  | String c s' =>
      if is_linebreak c then
        match s' with
        | String c2 s'' =>
            if Ascii.eqb c "013"%char && Ascii.eqb c2 "010"%char
            then cur :: splitlines_from EmptyString s''
            else cur :: splitlines_from EmptyString s'
        | EmptyString => cur :: splitlines_from EmptyString s'
        end
      else splitlines_from (cur +:+ String c EmptyString) s'
  end.

Definition splitlines (s : string) : list string := splitlines_from EmptyString s.

Module Conftest.

(** The class [RequirementCoverage]: the name of the report, if any, and the
    requirement recorded for each test. *)
Record RequirementCoverage : Type := {
  output_filename : option string;
  results : gmap string string;
}.

(** The test function of a collected item: its [__doc__] and [__name__]. *)
Record item : Type := Item {
  obj_doc : option string;
  obj_name : string;
}.

(** Truth value of a string that may be [None]. *)
Definition truthy_opt (o : option string) : bool :=
  match o with Some s => truthy s | None => false end.

(** [line = line.strip().strip(".")]. *)
Definition clean (line : string) : string :=
  strip_by is_dot (strip_by is_whitespace line).

Definition pytest_itemcollected (it : item) (rc : RequirementCoverage) :
    RequirementCoverage :=
  let doc := obj_doc it in
  if truthy_opt (output_filename rc) && truthy_opt doc then
    {| output_filename := output_filename rc;
       results :=
         fold_left
           (λ res line,
              let line := clean line in
              if Str.startswith line "REQ-"
              then <[obj_name it := line]> res
              else res)
           (splitlines (default "" doc)) (results rc) |}
  else rc.

(** [require_vcs(prog, request)]; [ci] is [request.config.getoption("ci")]
    and [which] stands for [e3.os.fs.which]. *)
Definition require_vcs (which : string → string) (ci : bool) (prog : string) :
    Py state unit :=
  if negb (truthy (which prog)) then
    if ci
    then raise (Failed (prog +:+ " not available"))
    else raise (Skipped (prog +:+ " not available"))
  else ret tt.

(** The hook of the conftest; [RESULTS_DIR] is the module global read from
    the environment at import, and the flag is [pytest.test_errors]. *)
Definition pytest_runtest_makereport (RESULTS_DIR : option string)
    (rep : report) : Py state unit :=
  (let* st := get in
   match RESULTS_DIR with
   | None => ret tt
   | Some RESULTS_DIR =>
       if negb (truthy RESULTS_DIR) || negb (bool_decide (RESULTS_DIR ∈ dirs st))
       then ret tt
       else if String.eqb (when rep) "call" then
         let outcome' := Str.upper (outcome rep) in
         let test_name := Str.replace (Str.replace (nodeid rep) "/" ".") "::" "--" in
         (if truthy (longreprtext rep)
          then write_text (os_path_join RESULTS_DIR (test_name +:+ ".diff"))
                          (longreprtext rep)
          else ret tt) ;;
         append_text (os_path_join RESULTS_DIR "results")
                     (test_name +:+ ":" +:+ outcome' +:+ newline)
       else if String.eqb (outcome rep) "failed"
         then modify (set_test_errors true)
         else ret tt
   end)%py.

Definition pytest_sessionfinish : Py state unit :=
  (let* st := get in
   if test_errors st then modify (set_exitstatus 3) else ret tt)%py.

End Conftest.

(** The requirement lines of a docstring: its lines, cleaned, that start
    with [REQ-]. *)
Definition requirement_lines (doc : string) : list string :=
  List.filter (λ line, Str.startswith line "REQ-") (map Conftest.clean (splitlines doc)).

(** * The [env_protect] fixture *)

(** What the fixture acts on: [os.environ], the working directory, the file
    system, the stack of environments saved by [Env().store()],
    [Config.data], whether debug logging is on, and the temporary
    directories whose [restore_env] is registered as a finalizer. *)
Record sandbox : Type := Sandbox {
  sb_environ : gmap string string;
  sb_cwd : string;
  sb_fs : gmap string content;
  sb_dirs : gset string;
  sb_saved : list (gmap string string * string);
  sb_config_data : gmap string string;
  sb_debug_log : bool;
  sb_finalizers : list string;
}.

(** Modelled from the spec: [Env().store()] of [e3.env] (not among the
    sources), from the docstring of the fixture: it saves the environment
    and the working directory. *)
Definition Env_store (sb : sandbox) : sandbox :=
  {| sb_environ := sb_environ sb; sb_cwd := sb_cwd sb; sb_fs := sb_fs sb;
     sb_dirs := sb_dirs sb;
     sb_saved := (sb_environ sb, sb_cwd sb) :: sb_saved sb;
     sb_config_data := sb_config_data sb; sb_debug_log := sb_debug_log sb;
     sb_finalizers := sb_finalizers sb |}.

(** Modelled from the spec: [Env().restore()] of [e3.env]: it puts back the
    environment and the working directory saved last, and does nothing when
    none is saved. *)
Definition Env_restore (sb : sandbox) : sandbox :=
  match sb_saved sb with
  | [] => sb
  | (env, cwd) :: saved =>
      {| sb_environ := env; sb_cwd := cwd; sb_fs := sb_fs sb;
         sb_dirs := sb_dirs sb; sb_saved := saved;
         sb_config_data := sb_config_data sb; sb_debug_log := sb_debug_log sb;
         sb_finalizers := sb_finalizers sb |}
  end.

(** [path] is [dir] or lies under it. *)
Definition under (dir path : string) : bool :=
  String.eqb path dir || Str.startswith path (dir +:+ "/").

(** Modelled from the spec: [rm(tempd, True)] of [e3.fs]: the directory and
    all it holds are removed. *)
Definition rm_tree (dir : string) (sb : sandbox) : sandbox :=
  {| sb_environ := sb_environ sb; sb_cwd := sb_cwd sb;
     sb_fs := filter (λ kv, under dir kv.1 = false) (sb_fs sb);
     sb_dirs := filter (λ d, under dir d = false) (sb_dirs sb);
     sb_saved := sb_saved sb;
     sb_config_data := sb_config_data sb; sb_debug_log := sb_debug_log sb;
     sb_finalizers := sb_finalizers sb |}.

(** The function the fixture registers as finalizer. *)
Definition restore_env (tempd : string) (sb : sandbox) : sandbox :=
  rm_tree tempd (Env_restore sb).

(** [e3] is the [--e3] option and [tempd] the directory [mkdtemp] makes.
    [cd] (of [e3.os.fs]) changes the working directory, [e3.log.activate]
    turns debug logging on. *)
Definition env_protect (e3 : bool) (tempd : string) (sb : sandbox) : sandbox :=
  if e3 then
    let sb := Env_store sb in
    let environ :=
      <["E3_CONFIG" := "/dev/null"]>
        (<["E3_ENABLE_FEATURE" := ""]> (<["TZ" := "UTC"]> (sb_environ sb))) in
    let environ :=
      if bool_decide (is_Some (environ !! "E3_HOSTNAME"))
      then delete "E3_HOSTNAME" environ
      else environ in
    {| sb_environ := environ;
       sb_cwd := tempd;
       sb_fs := sb_fs sb;
       sb_dirs := {[ tempd ]} ∪ sb_dirs sb;
       sb_saved := sb_saved sb;
       sb_config_data := ∅;
       sb_debug_log := true;
       sb_finalizers := tempd :: sb_finalizers sb |}
  else sb.

(** What a test may do between the set-up of the fixture and its finalizer:
    anything to the environment, the working directory, the file system and
    [Config.data]; the saved environments are those of the set-up. *)
Definition test_body (environ' : gmap string string) (cwd' : string)
    (fs' : gmap string content) (dirs' : gset string)
    (config_data' : gmap string string) (sb : sandbox) : sandbox :=
  {| sb_environ := environ'; sb_cwd := cwd'; sb_fs := fs'; sb_dirs := dirs';
     sb_saved := sb_saved sb; sb_config_data := config_data';
     sb_debug_log := sb_debug_log sb; sb_finalizers := sb_finalizers sb |}.

(** * Notions the properties are stated with *)

(** The database [fix_coverage_paths] writes for the database [d] it read. *)
Definition rewritten (origin_dir new_dir : string)
    (d : gmap string (gset nat)) : gmap string (gset nat) :=
  CoverageData.update ∅ d (PathAliases.add origin_dir new_dir PathAliases.empty).

(** The records [d] holds under [key] that stay there: none when the rule
    rewrites [key]. *)
Definition staying (origin_dir : string) (d : gmap string (gset nat))
    (key : string) : option (gset nat) :=
  if Str.startswith key origin_dir then None else d !! key.

(** The records [d] holds under the identifier the rule rewrites to [key]. *)
Definition arriving (origin_dir new_dir : string) (d : gmap string (gset nat))
    (key : string) : option (gset nat) :=
  if Str.startswith key new_dir
  then d !! (origin_dir +:+ Str.drop (String.length new_dir) key)
  else None.

(** A database recorded partly from the installed copy and partly from the
    source tree, and the file system that holds it. *)
Definition mixed_db : gmap string (gset nat) :=
  {[ "/build/pkg/mod.py" := {[1]}; "/src/mod.py" := {[2]} ]}.

Definition mixed_fs : gmap string content := {[ "/tmp/db" := Database mixed_db ]}.

(** A database with a file of the source tree that the rule does not touch,
    and the same file as recorded from the installed copy. *)
Definition overlap_db : gmap string (gset nat) :=
  {[ "/opt/site/e3/fs.py" := {[10; 11]}; "/work/src/fs.py" := {[12]} ]}.

Definition overlap_fs : gmap string content :=
  {[ "/work/.coverage" := Database overlap_db ]}.

(** The regular expressions the hook hands to [cov.exclude], in order. *)
Definition exclude_patterns (os_name : string) : list string :=
  DEFAULT_EXCLUDE_LIST
  ++ map (λ o, o +:+ "-only")
       (filter (λ o, o ≠ os_name)
          ["darwin"; "linux"; "solaris"; "windows"; "bsd"; "aix"])
  ++ (if bool_decide (os_name = "windows")
      then [win32_ne]
      else [win32_eq; "unix: no cover"])
  ++ [os_name +:+ ": no cover"].

(** The files the reports omit. *)
Definition omitted (cfg : config) (h : host) (st : state) : list string :=
  match fs st !! path_div (path_div (path_div (rootpath cfg) "tests") "coverage")
                   ("omit-files-" +:+ os_name h) with
  | Some f => run_omit h ++ map Str.rstrip (Str.lines (text_of f))
  | None => run_omit h
  end.

(** The calls on the coverage engine, once the hook is past the rewrite. *)
Definition coverage_calls (cfg : config) (h : host) (st : state) : list event :=
  Coverage_init (path_div (rootpath cfg) ".coverage")
  :: map Cov_exclude (exclude_patterns (os_name h))
  ++ [Cov_load; Cov_html_report (omitted cfg h st);
      Cov_report (omitted cfg h st) 3; Cov_xml_report].

(** The regular expressions excluded in a sequence of calls. *)
Definition excluded (evs : list event) : list string :=
  flat_map (λ ev, match ev with Cov_exclude regex => [regex] | _ => [] end) evs.

(** The calls of the path rewriter in a sequence of calls. *)
Definition rewriter_calls (evs : list event) : list (string * string * string) :=
  flat_map (λ ev, match ev with
                  | Call_fix_coverage_paths o n db => [(o, n, db)]
                  | _ => []
                  end) evs.

(** A computation that calls no collaborator. *)
Definition silent {S A} (m : Py S A) : Prop := ∀ s, log (m s) = [].

(** The operating systems the hook knows by name. *)
Definition known_os : list string :=
  ["darwin"; "linux"; "solaris"; "windows"; "bsd"; "aix"].

(** A session with the e3 option and a coverage source, in a repository at
    [/repo] with a coverage database, and its host. *)
Definition cov_config : config :=
  {| opt_e3 := true; opt_cov_source := ["e3"];
     opt_e3_cov_rewrite := None; rootpath := "/repo" |}.

Definition host_on (os : string) : host :=
  {| os_name := os; tmp_name := "/repo/tmpq0"; run_omit := [] |}.

Definition cov_state : state :=
  import_module {[ "/repo/.coverage" := Database ∅ ]} ∅ ∅ 0.

(** Whether a call raises the flag in the state it runs in. *)
Definition raises_flag (c : hook_call) (st : state) : bool :=
  match c with
  | Makereport rep =>
      results_dir_ok st && negb (String.eqb (when rep) "call")
      && String.eqb (outcome rep) "failed"
  | _ => false
  end.

(** [c] occurs in [s]. *)
Definition occurs (c : ascii) (s : string) : Prop :=
  In c (list_ascii_of_string s).

(** The name the report hook gives a test: its node id with every [/]
    replaced by [.] and then every [::] by [--]. *)
Definition test_name (nodeid : string) : string :=
  Str.replace (Str.replace nodeid "/" ".") "::" "--".

(** The line the report hook appends to the results file. *)
Definition results_line (rep : report) : string :=
  test_name (nodeid rep) +:+ ":" +:+ Str.upper (outcome rep) +:+ newline.

(** The value of [RESULTS_DIR], empty when it is not set. *)
Definition results_dir (st : state) : string :=
  default "" (environ st !! "RESULTS_DIR").

(** The text a file holds, empty when there is no such file. *)
Definition text_at (files : gmap string content) (path : string) : string :=
  from_option text_of "" (files !! path).

(** The directory part of the paths [os.path.join] builds under [d]. *)
Definition dir_prefix (d : string) : string :=
  if bool_decide (Str.last d = Some "/"%char) then d else d +:+ "/".

(** The file system after the report hook recorded a report of the call
    phase. *)
Definition report_written (rep : report) (st : state) : gmap string content :=
  let d := results_dir st in
  let fs1 :=
    if truthy (longreprtext rep)
    then <[os_path_join d (test_name (nodeid rep) +:+ ".diff")
           := Text (longreprtext rep)]> (fs st)
    else fs st in
  <[os_path_join d "results"
    := Text (text_at fs1 (os_path_join d "results") +:+ results_line rep)]> fs1.

(** The state after the report hook ran on each report in turn. *)
Definition after_reports (reps : list report) (st : state) : state :=
  run_hooks (map Makereport reps) st.

(** The lines the report hook writes for a sequence of reports: one for each
    report of the call phase, in order. *)
Definition results_lines (reps : list report) : string :=
  fold_right String.append ""
    (map results_line (List.filter (λ rep, String.eqb (when rep) "call") reps)).

(** The path of the coverage database of a session. *)
Definition cov_file_of (cfg : config) : string :=
  path_div (rootpath cfg) ".coverage".

(** The call of the rewriter the options of a session ask for, if any. *)
Definition rewrite_call (cfg : config) : list event :=
  match opt_e3_cov_rewrite cfg with
  | Some (origin_dir, new_dir) =>
      [Call_fix_coverage_paths origin_dir new_dir (cov_file_of cfg)]
  | None => []
  end.

(** [x] does not end with white space. *)
Definition no_trailing_space (x : string) : Prop :=
  ∀ c, Str.last x = Some c → Str.is_space c = false.

(** [entry] is [line] without its trailing white space. *)
Definition stripped_of (line entry : string) : Prop :=
  no_trailing_space entry
  ∧ ∃ ws, line = entry +:+ ws ∧ ∀ c, occurs c ws → Str.is_space c = true.

(** The file of a session that lists the files to omit on the current
    operating system. *)
Definition conf_file_of (cfg : config) (h : host) : string :=
  path_div (path_div (path_div (rootpath cfg) "tests") "coverage")
    ("omit-files-" +:+ os_name h).

(** The lines of that file, none when there is no such file. *)
Definition conf_lines (files : gmap string content) (cfg : config) (h : host) :
    list string :=
  from_option (λ f, Str.lines (text_of f)) [] (files !! conf_file_of cfg h).

(** A change from outside the module after which [RESULTS_DIR] still does
    not name an existing directory; a call of the module itself counts as
    one. *)
Definition leaves_no_results_dir (c : hook_call) : Prop :=
  match c with
  | Outside fs' dirs' environ' =>
      results_dir_ok (State fs' dirs' environ' false false 0) = false
  | _ => True
  end.

(** A call of the module itself, not a change made from outside it. *)
Definition own_call (c : hook_call) : Prop :=
  match c with Outside _ _ _ => False | _ => True end.

(** * Properties *)

(** ** Strings *)

Lemma append_cons (a : ascii) (s t : string) :
  String a s +:+ t = String a (s +:+ t).
Proof. reflexivity. Qed.

Lemma append_nil (t : string) : "" +:+ t = t.
Proof. reflexivity. Qed.

Lemma startswith_app (p r : string) : Str.startswith (p +:+ r) p = true.
Proof.
  induction p as [|a p IH]; [done|].
  rewrite append_cons. simpl. by rewrite Ascii.eqb_refl.
Qed.

Lemma drop_app (p r : string) : Str.drop (String.length p) (p +:+ r) = r.
Proof.
  induction p as [|a p IH]; [by destruct r|].
  by rewrite append_cons.
Qed.

Lemma startswith_split (s p : string) :
  Str.startswith s p = true → s = p +:+ Str.drop (String.length p) s.
Proof.
  revert s. induction p as [|a p IH]; intros s H.
  - by destruct s.
  - destruct s as [|b s]; [done|]. simpl in H.
    destruct (Ascii.eqb a b) eqn:E; [|done].
    apply Ascii.eqb_eq in E as ->.
    rewrite append_cons. simpl. f_equal. by apply IH.
Qed.

Lemma length_app (s t : string) :
  String.length (s +:+ t) = (String.length s + String.length t)%nat.
Proof.
  induction s as [|a s IH]; [done|].
  rewrite append_cons. simpl. by rewrite IH.
Qed.

Lemma last_app_cons (s : string) (c : ascii) (t : string) :
  Str.last (s +:+ String c t) = Str.last (String c t).
Proof.
  induction s as [|a s IH]; [done|].
  rewrite append_cons, <- IH.
  destruct (s +:+ String c t) eqn:E; [|done].
  apply (f_equal String.length) in E. rewrite length_app in E.
  simpl in E. lia.
Qed.

Lemma append_inj_r (t s1 s2 : string) : s1 +:+ t = s2 +:+ t → s1 = s2.
Proof.
  revert s2. induction s1 as [|a s1 IH]; intros [|b s2] H.
  - done.
  - apply (f_equal String.length) in H.
    rewrite append_nil, append_cons in H. simpl in H.
    rewrite length_app in H. lia.
  - apply (f_equal String.length) in H.
    rewrite append_nil, append_cons in H. simpl in H.
    rewrite length_app in H. lia.
  - rewrite !append_cons in H. injection H as -> H. f_equal. by apply IH.
Qed.

(** ** The alias rule and the merge *)

Lemma map_rule_match (origin new rest : string) :
  PathAliases.map (PathAliases.add origin new PathAliases.empty) (origin +:+ rest)
  = new +:+ rest.
Proof.
  unfold PathAliases.add, PathAliases.empty. simpl.
  by rewrite startswith_app, drop_app.
Qed.

Lemma map_rule_nomatch (origin new path : string) :
  Str.startswith path origin = false →
  PathAliases.map (PathAliases.add origin new PathAliases.empty) path = path.
Proof.
  intros H. unfold PathAliases.add, PathAliases.empty. simpl. by rewrite H.
Qed.

(** The identifiers a single rule sends to [key]: [key] itself when the rule
    leaves it alone, and the identifier the rule rewrites to [key]. *)
Lemma map_rule_inv (origin new path key : string) :
  PathAliases.map (PathAliases.add origin new PathAliases.empty) path = key →
  (path = key ∧ Str.startswith key origin = false)
  ∨ (Str.startswith key new = true
     ∧ path = origin +:+ Str.drop (String.length new) key).
Proof.
  unfold PathAliases.add, PathAliases.empty. simpl.
  destruct (Str.startswith path origin) eqn:E; intros <-.
  - right. rewrite startswith_app, drop_app. split; [done|].
    by apply startswith_split.
  - by left.
Qed.

(** What [update] leaves under a key: the key is there when [self] had it or
    some identifier of [other] is rewritten to it, and its lines are those of
    [self] and of every such identifier. *)
Lemma update_spec (self other : gmap string (gset nat))
    (aliases : PathAliases.t) (key : string) :
  (is_Some (CoverageData.update self other aliases !! key)
   ↔ is_Some (self !! key)
     ∨ ∃ path, is_Some (other !! path) ∧ PathAliases.map aliases path = key)
  ∧ (∀ ln : nat,
       ln ∈ default ∅ (CoverageData.update self other aliases !! key)
       ↔ ln ∈ default ∅ (self !! key)
         ∨ ∃ path lines, other !! path = Some lines
                         ∧ PathAliases.map aliases path = key ∧ ln ∈ lines).
Proof.
  unfold CoverageData.update.
  apply (map_fold_weak_ind (λ acc m,
    (is_Some (acc !! key)
     ↔ is_Some (self !! key)
       ∨ ∃ path, is_Some (m !! path) ∧ PathAliases.map aliases path = key)
    ∧ (∀ ln : nat,
         ln ∈ default ∅ (acc !! key)
         ↔ ln ∈ default ∅ (self !! key)
           ∨ ∃ path lines, m !! path = Some lines
                           ∧ PathAliases.map aliases path = key ∧ ln ∈ lines))).
  - split.
    + split; [by left|]. intros [H|(p & H & _)]; [done|].
      rewrite lookup_empty in H. by destruct H.
    + intros ln. split; [by left|]. intros [H|(p & l & H & _)]; [done|].
      by rewrite lookup_empty in H.
  - intros i x m acc Hi [IH1 IH2]. unfold CoverageData.merge_file.
    destruct (decide (PathAliases.map aliases i = key)) as [<-|Hne].
    + rewrite lookup_insert_eq. split.
      * split; [|by eauto]. intros _. right. exists i.
        by rewrite lookup_insert_eq.
      * intros ln. simpl. rewrite elem_of_union, IH2. split.
        -- intros [H|[H|(p & l & Hp & Hk & Hl)]].
           ++ right. exists i, x. by rewrite lookup_insert_eq.
           ++ by left.
           ++ right. exists p, l. split; [|done].
              rewrite lookup_insert_ne; [done|]. by intros ->; rewrite Hi in Hp.
        -- intros [H|(p & l & Hp & Hk & Hl)]; [by right; left|].
           destruct (decide (i = p)) as [->|Hip].
           ++ rewrite lookup_insert_eq in Hp. injection Hp as ->. by left.
           ++ rewrite lookup_insert_ne in Hp by done. right; right. eauto.
    + rewrite lookup_insert_ne by done. split.
      * rewrite IH1. split.
        -- intros [H|(p & Hp & Hk)]; [by left|]. right. exists p. split; [|done].
           rewrite lookup_insert_ne; [done|]. by intros ->.
        -- intros [H|(p & Hp & Hk)]; [by left|]. right. exists p. split; [|done].
           rewrite lookup_insert_ne in Hp; [done|]. by intros ->.
      * intros ln. rewrite IH2. split.
        -- intros [H|(p & l & Hp & Hk & Hl)]; [by left|]. right. exists p, l.
           split; [|done]. rewrite lookup_insert_ne; [done|]. by intros ->.
        -- intros [H|(p & l & Hp & Hk & Hl)]; [by left|]. right. exists p, l.
           split; [|done]. rewrite lookup_insert_ne in Hp; [done|]. by intros ->.
Qed.

Lemma staying_source (origin new : string) (d : gmap string (gset nat))
    (key : string) (l : gset nat) :
  staying origin d key = Some l →
  d !! key = Some l
  ∧ PathAliases.map (PathAliases.add origin new PathAliases.empty) key = key.
Proof.
  unfold staying. destruct (Str.startswith key origin) eqn:E; [done|].
  intros H. split; [done|]. by apply map_rule_nomatch.
Qed.

Lemma arriving_source (origin new : string) (d : gmap string (gset nat))
    (key : string) (l : gset nat) :
  arriving origin new d key = Some l →
  d !! (origin +:+ Str.drop (String.length new) key) = Some l
  ∧ PathAliases.map (PathAliases.add origin new PathAliases.empty)
      (origin +:+ Str.drop (String.length new) key) = key.
Proof.
  unfold arriving. destruct (Str.startswith key new) eqn:E; [|done].
  intros H. split; [done|]. rewrite map_rule_match.
  symmetry. by apply startswith_split.
Qed.

Lemma source_cases (origin new : string) (d : gmap string (gset nat))
    (path key : string) (l : gset nat) :
  d !! path = Some l →
  PathAliases.map (PathAliases.add origin new PathAliases.empty) path = key →
  staying origin d key = Some l ∨ arriving origin new d key = Some l.
Proof.
  intros Hd Hm. unfold staying, arriving.
  destruct (map_rule_inv _ _ _ _ Hm) as [[-> ->]|[-> ->]]; [by left | by right].
Qed.

(** The rewritten database, key by key: what stayed under the key merged with
    what arrived there. *)
Lemma rewritten_lookup (origin new : string) (d : gmap string (gset nat))
    (key : string) :
  rewritten origin new d !! key
  = union_with (λ a b, Some (a ∪ b)) (staying origin d key) (arriving origin new d key).
Proof.
  destruct (update_spec ∅ d (PathAliases.add origin new PathAliases.empty) key)
    as [Hsome Hlines].
  fold (rewritten origin new d) in Hsome, Hlines.
  pose proof (staying_source origin new d key) as Hs.
  pose proof (arriving_source origin new d key) as Ha.
  pose proof (λ p l, source_cases origin new d p key l) as Hc.
  rewrite lookup_empty in Hsome, Hlines.
  destruct (rewritten origin new d !! key) as [r|] eqn:ER.
  - cbn [default] in Hlines.
    assert (∀ ln, ln ∈ r ↔
              ∃ l, (staying origin d key = Some l ∨ arriving origin new d key = Some l)
                   ∧ ln ∈ l) as Hr.
    { intros ln. rewrite Hlines. split.
      - intros [H|(p & l & Hp & Hk & Hl)]; [set_solver|]. exists l. eauto.
      - intros (l & [H|H] & Hl); right.
        + destruct (Hs l H). eauto.
        + destruct (Ha l H). eauto. }
    destruct (proj1 Hsome (mk_is_Some _ _ eq_refl)) as [[? [=]]|(p & [l Hp] & Hk)].
    pose proof (Hc p l Hp Hk) as Hpl.
    destruct (staying origin d key) as [a|], (arriving origin new d key) as [b|];
      [| | |by destruct Hpl];
      simpl; f_equal; apply set_eq; intros ln; rewrite Hr.
    + rewrite elem_of_union. split.
      * intros (l' & [[= <-]|[= <-]] & Hl'); eauto.
      * intros [H|H]; eauto.
    + split; [intros (l' & [[= <-]|[=]] & Hl'); done | eauto].
    + split; [intros (l' & [[=]|[= <-]] & Hl'); done | eauto].
  - destruct (staying origin d key) as [a|] eqn:Ea.
    + destruct (Hs a eq_refl) as [Hd Hm].
      destruct (proj2 Hsome) as [? [=]]. right. exists key. eauto.
    + destruct (arriving origin new d key) as [b|] eqn:Eb; [|done].
      destruct (Ha b eq_refl) as [Hd Hm].
      destruct (proj2 Hsome) as [? [=]]. right. eauto.
Qed.

(** ** Running computations step by step *)

Lemma bind_ok {S A B} (m : Py S A) (k : A → Py S B) (s s1 : S) (a : A)
    (l1 : list event) (o : out S B) :
  m s = Out (Ok a) s1 l1 → k a s1 = o →
  bind m k s = Out (res o) (post o) (l1 ++ log o).
Proof. intros Hm <-. unfold bind. by rewrite Hm. Qed.

Lemma bind_raise {S A B} (m : Py S A) (k : A → Py S B) (s s1 : S) (e : exn)
    (l1 : list event) :
  m s = Out (Raise e) s1 l1 → bind m k s = Out (Raise e) s1 l1.
Proof. intros Hm. unfold bind. by rewrite Hm. Qed.

Lemma try_finally_eq {S A} (body : Py S A) (cleanup : Py S unit) (s : S)
    (o : out S A) (c : out S unit) :
  body s = o → cleanup (post o) = c →
  try_finally body cleanup s
  = Out (match res c with Ok _ => res o | Raise e => Raise e end)
        (post c) (log o ++ log c).
Proof. intros <- <-. reflexivity. Qed.

(** ** The three ways [fix_coverage_paths] runs *)

Lemma tmp_not_cov_db (fs : gmap string content) (cov_db tmp : string) (c : content) :
  fs !! tmp = None → fs !! cov_db = Some c → cov_db ≠ tmp.
Proof. intros Ht Hc ->. by rewrite Ht in Hc. Qed.

Lemma NamedTemporaryFile_close_fresh (tmp : string) (fs : gmap string content) :
  fs !! tmp = None → NamedTemporaryFile_close tmp fs = Out (Ok tmp) fs [].
Proof.
  intros Ht. unfold NamedTemporaryFile_close.
  by rewrite delete_insert_eq, delete_id.
Qed.

Lemma moved_aside_restored (fs : gmap string content) (cov_db tmp : string)
    (c c' : content) :
  fs !! tmp = None → cov_db ≠ tmp →
  delete tmp (<[cov_db := c']> (<[tmp := c]> (delete cov_db fs)))
  = <[cov_db := c']> fs.
Proof.
  intros Ht Hne. apply map_eq; intros k.
  destruct (decide (k = tmp)) as [->|Hkt].
  - rewrite lookup_delete_eq, lookup_insert_ne by done. by rewrite Ht.
  - rewrite lookup_delete_ne by done.
    destruct (decide (k = cov_db)) as [->|Hkc].
    + by rewrite !lookup_insert_eq.
    + by rewrite !lookup_insert_ne, lookup_delete_ne by done.
Qed.

(** The database is there and loads: it is rewritten in place. *)
Lemma fix_coverage_paths_ok (origin_dir new_dir cov_db tmp : string)
    (fs : gmap string content) (d : gmap string (gset nat)) :
  fs !! tmp = None →
  fs !! cov_db = Some (Database d) →
  fix_coverage_paths origin_dir new_dir cov_db tmp fs
  = Out (Ok tt) (<[cov_db := Database (rewritten origin_dir new_dir d)]> fs) [].
Proof.
  intros Ht Hc. pose proof (tmp_not_cov_db _ _ _ _ Ht Hc) as Hne.
  unfold fix_coverage_paths.
  erewrite bind_ok; [|by apply NamedTemporaryFile_close_fresh|].
  2:{ eapply try_finally_eq; [|reflexivity].
      eapply bind_ok; [unfold mv; by rewrite Hc|].
      eapply bind_ok; [unfold CoverageData_read; by rewrite lookup_insert_eq|].
      eapply bind_ok; [|reflexivity].
      unfold CoverageData_read.
      by rewrite lookup_insert_ne, lookup_delete_eq. }
  cbn [res post log CoverageData_write app]. unfold unlink.
  rewrite lookup_insert_ne, lookup_insert_eq by done.
  cbn [res post log app]. f_equal.
  by apply moved_aside_restored.
Qed.

(** The file is there and is no database: the error of the load escapes, and
    both the file and the temporary file are gone. *)
Lemma fix_coverage_paths_unparsable (origin_dir new_dir cov_db tmp : string)
    (fs : gmap string content) (s : string) :
  fs !! tmp = None →
  fs !! cov_db = Some (Text s) →
  fix_coverage_paths origin_dir new_dir cov_db tmp fs
  = Out (Raise (DataError tmp)) (delete cov_db fs) [].
Proof.
  intros Ht Hc. pose proof (tmp_not_cov_db _ _ _ _ Ht Hc) as Hne.
  unfold fix_coverage_paths.
  erewrite bind_ok; [|by apply NamedTemporaryFile_close_fresh|].
  2:{ eapply try_finally_eq; [|reflexivity].
      eapply bind_ok; [unfold mv; by rewrite Hc|].
      eapply bind_raise. unfold CoverageData_read.
      by rewrite lookup_insert_eq. }
  cbn [res post log app]. unfold unlink.
  rewrite lookup_insert_eq. cbn [res post log app]. f_equal.
  rewrite delete_insert_eq. apply delete_id.
  by rewrite lookup_delete_ne.
Qed.

(** The file cannot be moved: the body stops at [mv], the cleanup finds no
    temporary file and raises in its turn, and nothing has changed. *)
Lemma fix_coverage_paths_unmovable (origin_dir new_dir cov_db tmp : string)
    (fs : gmap string content) :
  fs !! tmp = None →
  is_ok (res (mv cov_db tmp fs)) = false →
  fix_coverage_paths origin_dir new_dir cov_db tmp fs
  = Out (Raise (FileNotFoundError tmp)) fs [].
Proof.
  intros Ht Hmv.
  assert (∃ e, mv cov_db tmp fs = Out (Raise e) fs []) as [e He].
  { unfold mv in *. destruct (fs !! cov_db); [done | eauto]. }
  unfold fix_coverage_paths.
  erewrite bind_ok; [|by apply NamedTemporaryFile_close_fresh|].
  2:{ eapply try_finally_eq; [|reflexivity].
      eapply bind_raise. exact He. }
  cbn [res post log app]. unfold unlink. by rewrite Ht.
Qed.

(** ** The coverage path rewriter *)

(** C1, as stated, fails: the input holds [/build/pkg/mod.py] with lines
    {1} and also [/src/mod.py] with lines {2}; after the rewrite
    [/src/mod.py] holds {1, 2}, not the {1} recorded under
    [/build/pkg/mod.py]. *)
Lemma rewritten_records_not_identical :
  mixed_fs !! "/tmp/tmpx" = None
  ∧ mixed_db !! ("/build/pkg" +:+ "/" +:+ "mod.py") = Some {[1]}
  ∧ res (fix_coverage_paths "/build/pkg" "/src" "/tmp/db" "/tmp/tmpx" mixed_fs)
    = Ok tt
  ∧ ∃ d', post (fix_coverage_paths "/build/pkg" "/src" "/tmp/db" "/tmp/tmpx" mixed_fs)
            !! "/tmp/db" = Some (Database d')
          ∧ d' !! ("/src" +:+ "/" +:+ "mod.py") = Some {[1; 2]}
          ∧ d' !! ("/src" +:+ "/" +:+ "mod.py") ≠ Some {[1]}.
Proof.
  split; [by vm_compute|]. split; [by vm_compute|]. split; [by vm_compute|].
  exists {[ "/src/mod.py" := {[1; 2]} ]}.
  split; [by vm_compute|]. split; [by vm_compute|].
  intros H. vm_compute in H. discriminate H.
Qed.

(** C1 (amended): when the database at [cov_db] holds [origin_dir/x], the
    rewrite succeeds and the database it leaves at [cov_db] holds
    [new_dir/x]; its records are those of [origin_dir/x] merged with the
    records the input already held under an identifier [new_dir/x] that the
    rule leaves in place.  They include every record of [origin_dir/x], and
    are identical to them when the input holds no identifier [new_dir/x]. *)
Theorem fix_coverage_paths_rewrites_origin
    (origin_dir new_dir cov_db tmp x : string)
    (fs : gmap string content) (d : gmap string (gset nat)) (r : gset nat) :
  fs !! tmp = None →
  fs !! cov_db = Some (Database d) →
  d !! (origin_dir +:+ "/" +:+ x) = Some r →
  res (fix_coverage_paths origin_dir new_dir cov_db tmp fs) = Ok tt
  ∧ ∃ d' r',
      post (fix_coverage_paths origin_dir new_dir cov_db tmp fs) !! cov_db
      = Some (Database d')
      ∧ d' !! (new_dir +:+ "/" +:+ x) = Some r'
      ∧ r' = r ∪ default ∅ (staying origin_dir d (new_dir +:+ "/" +:+ x))
      ∧ r ⊆ r'
      ∧ (d !! (new_dir +:+ "/" +:+ x) = None → r' = r).
Proof.
  intros Ht Hc Hx. rewrite (fix_coverage_paths_ok _ _ _ _ _ d) by done.
  cbn [res post]. split; [done|].
  set (key := new_dir +:+ "/" +:+ x).
  exists (rewritten origin_dir new_dir d),
         (r ∪ default ∅ (staying origin_dir d key)).
  split; [by rewrite lookup_insert_eq|].
  assert (arriving origin_dir new_dir d key = Some r) as Ha.
  { unfold arriving, key. by rewrite startswith_app, drop_app. }
  split; [|split; [done|split; [apply union_subseteq_l|]]].
  - rewrite rewritten_lookup, Ha.
    destruct (staying origin_dir d key) as [a|]; simpl; f_equal.
    + apply union_comm_L.
    + by rewrite union_empty_r_L.
  - intros Hnone. unfold staying. rewrite Hnone.
    destruct (Str.startswith key origin_dir); apply union_empty_r_L.
Qed.

Lemma fix_coverage_paths_rewrites_origin_witness :
  ({[ "/tmp/db" := Database {[ "/build/pkg/mod.py" := {[1; 2; 3]} ]} ]}
     : gmap string content) !! "/tmp/tmpx" = None
  ∧ ∃ d' r',
      post (fix_coverage_paths "/build/pkg" "/src" "/tmp/db" "/tmp/tmpx"
              {[ "/tmp/db" := Database {[ "/build/pkg/mod.py" := {[1; 2; 3]} ]} ]})
        !! "/tmp/db" = Some (Database d')
      ∧ d' !! ("/src" +:+ "/" +:+ "mod.py") = Some r'
      ∧ r' = {[1; 2; 3]}.
Proof.
  split; [by vm_compute|].
  destruct (fix_coverage_paths_rewrites_origin "/build/pkg" "/src" "/tmp/db"
              "/tmp/tmpx" "mod.py"
              {[ "/tmp/db" := Database {[ "/build/pkg/mod.py" := {[1; 2; 3]} ]} ]}
              {[ "/build/pkg/mod.py" := {[1; 2; 3]} ]} {[1; 2; 3]})
    as (_ & d' & r' & Hd' & Hr' & _ & _ & Heq); [by vm_compute ..|].
  exists d', r'. split; [done|]. split; [done|].
  apply Heq. by vm_compute.
Defined.

(** C3, as stated, fails: [/work/src/fs.py] does not start with
    [/opt/site/e3] and holds lines {12}; after the rewrite it is still there
    but holds {10, 11, 12}: the lines of [/opt/site/e3/fs.py], rewritten onto
    it, were merged in. *)
Lemma untouched_records_not_intact :
  overlap_fs !! "/work/.tmpq" = None
  ∧ overlap_db !! "/work/src/fs.py" = Some {[12]}
  ∧ Str.startswith "/work/src/fs.py" "/opt/site/e3" = false
  ∧ res (fix_coverage_paths "/opt/site/e3" "/work/src" "/work/.coverage"
           "/work/.tmpq" overlap_fs) = Ok tt
  ∧ ∃ d', post (fix_coverage_paths "/opt/site/e3" "/work/src" "/work/.coverage"
                  "/work/.tmpq" overlap_fs) !! "/work/.coverage"
          = Some (Database d')
          ∧ d' !! "/work/src/fs.py" = Some {[10; 11; 12]}
          ∧ d' !! "/work/src/fs.py" ≠ overlap_db !! "/work/src/fs.py".
Proof.
  split; [by vm_compute|]. split; [by vm_compute|]. split; [by vm_compute|].
  split; [by vm_compute|].
  exists {[ "/work/src/fs.py" := {[10; 11; 12]} ]}.
  split; [by vm_compute|]. split; [by vm_compute|].
  intros H. vm_compute in H. discriminate H.
Qed.

(** C3 (amended): an identifier of the input database that does not start
    with [origin_dir] is in the output database under the same name, and the
    rewrite raises no error over it.  Its records are the input's merged with
    the records of the identifier the rule rewrites onto it, if the input
    holds one: every input record is kept, and the records are identical to
    the input's when nothing is rewritten onto the identifier. *)
Theorem fix_coverage_paths_keeps_other
    (origin_dir new_dir cov_db tmp path : string)
    (fs : gmap string content) (d : gmap string (gset nat)) (r : gset nat) :
  fs !! tmp = None →
  fs !! cov_db = Some (Database d) →
  d !! path = Some r →
  Str.startswith path origin_dir = false →
  res (fix_coverage_paths origin_dir new_dir cov_db tmp fs) = Ok tt
  ∧ ∃ d' r',
      post (fix_coverage_paths origin_dir new_dir cov_db tmp fs) !! cov_db
      = Some (Database d')
      ∧ d' !! path = Some r'
      ∧ r' = r ∪ default ∅ (arriving origin_dir new_dir d path)
      ∧ r ⊆ r'
      ∧ (arriving origin_dir new_dir d path = None → r' = r).
Proof.
  intros Ht Hc Hp Hs. rewrite (fix_coverage_paths_ok _ _ _ _ _ d) by done.
  cbn [res post]. split; [done|].
  exists (rewritten origin_dir new_dir d),
         (r ∪ default ∅ (arriving origin_dir new_dir d path)).
  split; [by rewrite lookup_insert_eq|].
  assert (staying origin_dir d path = Some r) as Hst.
  { unfold staying. by rewrite Hs. }
  split; [|split; [done|split; [apply union_subseteq_l|]]].
  - rewrite rewritten_lookup, Hst.
    destruct (arriving origin_dir new_dir d path) as [a|]; simpl; f_equal.
    by rewrite union_empty_r_L.
  - intros ->. apply union_empty_r_L.
Qed.

Lemma fix_coverage_paths_keeps_other_witness :
  ∃ d', post (fix_coverage_paths "/build/pkg" "/src" "/tmp/db" "/tmp/tmpx"
                {[ "/tmp/db" := Database {[ "/build/pkg/mod.py" := {[1; 2; 3]};
                                            "/usr/lib/os.py" := {[7]} ]} ]})
          !! "/tmp/db" = Some (Database d')
        ∧ d' !! "/usr/lib/os.py" = Some {[7]}.
Proof.
  destruct (fix_coverage_paths_keeps_other "/build/pkg" "/src" "/tmp/db"
              "/tmp/tmpx" "/usr/lib/os.py"
              {[ "/tmp/db" := Database {[ "/build/pkg/mod.py" := {[1; 2; 3]};
                                          "/usr/lib/os.py" := {[7]} ]} ]}
              {[ "/build/pkg/mod.py" := {[1; 2; 3]}; "/usr/lib/os.py" := {[7]} ]}
              {[7]})
    as (_ & d' & r' & Hd' & Hr' & _ & _ & Heq); [by vm_compute ..|].
  exists d'. split; [done|]. rewrite Hr'. f_equal.
  apply Heq. by vm_compute.
Defined.

(** C2: once the database has been moved aside, the temporary file is gone
    when [fix_coverage_paths] is left, whichever way: when the database
    loads, the rewrite succeeds; when it does not, the error of the load
    escapes to the caller (and the moved-aside data is lost with the
    temporary file). *)
Theorem fix_coverage_paths_removes_temporary
    (origin_dir new_dir cov_db tmp : string)
    (fs : gmap string content) (c : content) :
  fs !! tmp = None →
  fs !! cov_db = Some c →
  is_ok (res (mv cov_db tmp fs)) = true
  ∧ post (fix_coverage_paths origin_dir new_dir cov_db tmp fs) !! tmp = None
  ∧ match c with
    | Database _ =>
        res (fix_coverage_paths origin_dir new_dir cov_db tmp fs) = Ok tt
    | Text _ =>
        res (fix_coverage_paths origin_dir new_dir cov_db tmp fs)
        = Raise (DataError tmp)
        ∧ post (fix_coverage_paths origin_dir new_dir cov_db tmp fs) !! cov_db
          = None
    end.
Proof.
  intros Ht Hc. pose proof (tmp_not_cov_db _ _ _ _ Ht Hc) as Hne.
  split; [unfold mv; by rewrite Hc|].
  destruct c as [d|s].
  - rewrite (fix_coverage_paths_ok _ _ _ _ _ d) by done. cbn [res post].
    split; [|done]. by rewrite lookup_insert_ne.
  - rewrite (fix_coverage_paths_unparsable _ _ _ _ _ s) by done. cbn [res post].
    split; [by rewrite lookup_delete_ne|].
    split; [done|]. apply lookup_delete_eq.
Qed.

Lemma fix_coverage_paths_removes_temporary_witness :
  post (fix_coverage_paths "/build/pkg" "/src" "/tmp/db" "/tmp/tmpx"
          {[ "/tmp/db" := Text "not a database" ]}) !! "/tmp/tmpx" = None
  ∧ res (fix_coverage_paths "/build/pkg" "/src" "/tmp/db" "/tmp/tmpx"
           {[ "/tmp/db" := Text "not a database" ]})
    = Raise (DataError "/tmp/tmpx").
Proof.
  destruct (fix_coverage_paths_removes_temporary "/build/pkg" "/src" "/tmp/db"
              "/tmp/tmpx" {[ "/tmp/db" := Text "not a database" ]}
              (Text "not a database"))
    as (_ & Hgone & Herr & _); [by vm_compute ..|].
  by split.
Defined.

Lemma fix_coverage_paths_with_mv :
  fix_coverage_paths_with mv = fix_coverage_paths.
Proof. reflexivity. Qed.

Lemma mv_failure_atomic (source target : string) (fs : gmap string content) :
  is_ok (res (mv source target fs)) = false → post (mv source target fs) = fs.
Proof. unfold mv. by destruct (fs !! source). Qed.

Lemma mv_permitted_refused (may_move : string → bool) (source target : string)
    (fs : gmap string content) :
  may_move source = false →
  is_ok (res (mv_permitted may_move source target fs)) = false
  ∧ post (mv_permitted may_move source target fs) = fs.
Proof. intros H. unfold mv_permitted. by rewrite H. Qed.

(** C4: when the database cannot be moved aside, for whatever reason (no
    file, or a move refused with the file in place), [fix_coverage_paths]
    fails with an error and the file system is as it was: nothing was
    rewritten, and the database at [cov_db], when there is one, was neither
    replaced nor modified.  Stated for any move that raises and changes
    nothing; [e3.os.fs.mv] as modelled is one, and the function with that
    move is [fix_coverage_paths]. *)
Theorem fix_coverage_paths_move_fails
    (move : string → string → Py (gmap string content) unit)
    (origin_dir new_dir cov_db tmp : string) (fs : gmap string content) :
  fs !! tmp = None →
  is_ok (res (move cov_db tmp fs)) = false →
  post (move cov_db tmp fs) = fs →
  fix_coverage_paths_with mv = fix_coverage_paths
  ∧ is_ok (res (fix_coverage_paths_with move origin_dir new_dir cov_db tmp fs))
    = false
  ∧ post (fix_coverage_paths_with move origin_dir new_dir cov_db tmp fs) = fs
  ∧ post (fix_coverage_paths_with move origin_dir new_dir cov_db tmp fs) !! cov_db
    = fs !! cov_db.
Proof.
  intros Ht Hfail Hsame. split; [reflexivity|].
  destruct (move cov_db tmp fs) as [[[]|e] fs1 l1] eqn:Hmove;
    cbn [res post is_ok] in Hfail, Hsame; [discriminate Hfail|]. subst fs1.
  assert (fix_coverage_paths_with move origin_dir new_dir cov_db tmp fs
          = Out (Raise (FileNotFoundError tmp)) fs l1) as ->.
  { unfold fix_coverage_paths_with.
    erewrite bind_ok; [|by apply NamedTemporaryFile_close_fresh|].
    2:{ eapply try_finally_eq; [|reflexivity].
        eapply bind_raise. exact Hmove. }
    cbn [res post log app]. unfold unlink. rewrite Ht.
    cbn [res post log]. by rewrite app_nil_r. }
  cbn [res post is_ok]. by repeat split.
Qed.

Lemma fix_coverage_paths_move_fails_witness :
  (is_ok (res (fix_coverage_paths_with (mv_permitted (λ _, false))
                 "/build/pkg" "/src" "/tmp/db" "/tmp/tmpx"
                 {[ "/tmp/db" := Database {[ "/build/pkg/mod.py" := {[1; 2; 3]} ]} ]}))
   = false
   ∧ post (fix_coverage_paths_with (mv_permitted (λ _, false))
             "/build/pkg" "/src" "/tmp/db" "/tmp/tmpx"
             {[ "/tmp/db" := Database {[ "/build/pkg/mod.py" := {[1; 2; 3]} ]} ]})
       !! "/tmp/db"
     = Some (Database {[ "/build/pkg/mod.py" := {[1; 2; 3]} ]}))
  ∧ (is_ok (res (fix_coverage_paths "/build/pkg" "/src" "/tmp/db" "/tmp/tmpx"
                   {[ "/tmp/other" := Text "kept" ]})) = false
     ∧ post (fix_coverage_paths "/build/pkg" "/src" "/tmp/db" "/tmp/tmpx"
               {[ "/tmp/other" := Text "kept" ]})
       = {[ "/tmp/other" := Text "kept" ]}).
Proof.
  split.
  - destruct (fix_coverage_paths_move_fails (mv_permitted (λ _, false))
                "/build/pkg" "/src" "/tmp/db" "/tmp/tmpx"
                {[ "/tmp/db" := Database {[ "/build/pkg/mod.py" := {[1; 2; 3]} ]} ]})
      as (_ & Hfail & _ & Hdb); [by vm_compute ..|].
    split; [exact Hfail|]. rewrite Hdb. by vm_compute.
  - destruct (fix_coverage_paths_move_fails mv
                "/build/pkg" "/src" "/tmp/db" "/tmp/tmpx"
                {[ "/tmp/other" := Text "kept" ]})
      as (Heq & Hfail & Hsame & _); [by vm_compute ..|].
    rewrite Heq in Hfail, Hsame. by split.
Defined.

(** ** The session-finish hook *)

Lemma for_each_emit {S A} (f : A → event) (xs : list A) (s : S) :
  for_each xs (λ x, emit (f x)) s = Out (Ok tt) s (map f xs).
Proof.
  induction xs as [|x xs IH]; [done|].
  simpl. erewrite bind_ok; [|reflexivity|apply IH]. done.
Qed.

Lemma silent_bind {S A B} (m : Py S A) (k : A → Py S B) :
  silent m → (∀ a, silent (k a)) → silent (bind m k).
Proof.
  intros Hm Hk s. unfold bind. specialize (Hm s).
  destruct (m s) as [[a|e] s1 l1]; cbn [res post log] in *; subst l1; [|done].
  apply Hk.
Qed.

Lemma silent_try_finally {S A} (body : Py S A) (cleanup : Py S unit) :
  silent body → silent cleanup → silent (try_finally body cleanup).
Proof.
  intros Hb Hc s. unfold try_finally. cbn [log]. by rewrite Hb, Hc.
Qed.

Lemma fix_coverage_paths_silent (origin_dir new_dir cov_db tmp : string) :
  silent (fix_coverage_paths origin_dir new_dir cov_db tmp).
Proof.
  unfold fix_coverage_paths.
  apply silent_bind; [done|]. intros old_cov_file.
  apply silent_try_finally.
  - apply silent_bind; [intros s; unfold mv; by destruct (s !! cov_db)|].
    intros _. apply silent_bind.
    { intros s. unfold CoverageData_read.
      by destruct (s !! old_cov_file) as [[?|?]|]. }
    intros old. apply silent_bind; [|done].
    intros s. unfold CoverageData_read. by destruct (s !! cov_db) as [[?|?]|].
  - intros s. unfold unlink. by destruct (s !! old_cov_file).
Qed.

Lemma bind_out {S A B} (m : Py S A) (k : A → Py S B) (s s1 s2 : S) (a : A)
    (r : result B) (l1 l2 : list event) :
  m s = Out (Ok a) s1 l1 → k a s1 = Out r s2 l2 →
  bind m k s = Out r s2 (l1 ++ l2).
Proof. intros Hm Hk. by rewrite (bind_ok _ _ _ _ _ _ _ Hm Hk). Qed.

(** Run a computation whose steps all return: the outcome of each step is
    known by computation, from [for_each_emit] or from a hypothesis. *)
Ltac py_run :=
  lazymatch goal with
  | |- bind _ _ _ = _ => eapply bind_out; [py_run | py_run]
  | |- for_each _ _ _ = _ => apply for_each_emit
  | |- _ => first [eassumption | reflexivity]
  end.

(** The hook, case by case. *)
Lemma pytest_sessionfinish_eq (cfg : config) (h : host) (st : state) :
  pytest_sessionfinish cfg h st =
  if negb (opt_e3 cfg) then Out (Ok tt) st []
  else
    let st1 := if test_errors st then set_exitstatus 3 st else st in
    match opt_cov_source cfg with
    | [] => Out (Ok tt) st1 []
    | _ :: _ =>
        match opt_e3_cov_rewrite cfg with
        | None => Out (Ok tt) st1 (coverage_calls cfg h st1)
        | Some (origin_dir, new_dir) =>
            let cov_file := path_div (rootpath cfg) ".coverage" in
            let f := fix_coverage_paths origin_dir new_dir cov_file (tmp_name h)
                       (fs st1) in
            let st2 := set_fs (post f) st1 in
            match res f with
            | Ok _ =>
                Out (Ok tt) st2
                  (Call_fix_coverage_paths origin_dir new_dir cov_file
                   :: coverage_calls cfg h st2)
            | Raise e =>
                Out (Raise e) st2
                  [Call_fix_coverage_paths origin_dir new_dir cov_file]
            end
        end
    end.
Proof.
  destruct cfg as [e3 cov_source rewrite root], h as [os tmp omit].
  unfold pytest_sessionfinish.
  cbn [opt_e3 opt_cov_source opt_e3_cov_rewrite rootpath os_name tmp_name run_omit].
  destruct e3; [|done]. cbn [negb].
  set (st1 := if test_errors st then set_exitstatus 3 st else st).
  assert ((if test_errors st then modify (set_exitstatus 3) else ret tt) st
          = Out (Ok tt) st1 []) as Hexit.
  { unfold st1. by destruct (test_errors st). }
  cbv zeta.
  destruct cov_source as [|src cov_source].
  { etransitivity; [py_run|]. reflexivity. }
  destruct rewrite as [[origin_dir new_dir]|].
  - pose proof (fix_coverage_paths_silent origin_dir new_dir
                  (path_div root ".coverage") tmp (fs st1)) as Hlog.
    destruct (fix_coverage_paths origin_dir new_dir (path_div root ".coverage")
                tmp (fs st1)) as [[[]|e] fs' l] eqn:Hfix;
      cbn [res post log] in *; subst l.
    + assert (on_fs (fix_coverage_paths origin_dir new_dir
                       (path_div root ".coverage") tmp) st1
              = Out (Ok tt) (set_fs fs' st1) []) as Hon.
      { unfold on_fs. by rewrite Hfix. }
      unfold coverage_calls, exclude_patterns, omitted.
      cbn [opt_e3 opt_cov_source opt_e3_cov_rewrite rootpath os_name tmp_name run_omit].
      destruct (bool_decide (os = "windows"));
        (etransitivity; [py_run|]);
        rewrite !map_app, <- !app_assoc; reflexivity.
    + assert (on_fs (fix_coverage_paths origin_dir new_dir
                       (path_div root ".coverage") tmp) st1
              = Out (Raise e) (set_fs fs' st1) []) as Hon.
      { unfold on_fs. by rewrite Hfix. }
      etransitivity;
        [eapply bind_out; [reflexivity|];
         eapply bind_out; [exact Hexit|];
         eapply bind_raise;
         eapply bind_out; [reflexivity|exact Hon]
        |reflexivity].
  - unfold coverage_calls, exclude_patterns, omitted.
    cbn [opt_e3 opt_cov_source opt_e3_cov_rewrite rootpath os_name tmp_name run_omit].
    destruct (bool_decide (os = "windows"));
      (etransitivity; [py_run|]);
      rewrite !map_app, <- !app_assoc; reflexivity.
Qed.

Lemma excluded_app (l1 l2 : list event) :
  excluded (l1 ++ l2) = excluded l1 ++ excluded l2.
Proof. unfold excluded. apply flat_map_app. Qed.

Lemma excluded_map (l : list string) : excluded (map Cov_exclude l) = l.
Proof. induction l as [|x l IH]; [done|]. simpl. by rewrite IH. Qed.

Lemma excluded_coverage_calls (cfg : config) (h : host) (st : state) :
  excluded (coverage_calls cfg h st) = exclude_patterns (os_name h).
Proof.
  unfold coverage_calls.
  change (Coverage_init ?f :: ?l) with ([Coverage_init f] ++ l).
  rewrite !excluded_app, excluded_map. simpl. by rewrite app_nil_r.
Qed.

(** When the hook gets to the coverage engine and returns, the regular
    expressions it excluded are [exclude_patterns] of the current OS. *)
Lemma sessionfinish_excluded (cfg : config) (h : host) (st : state) :
  opt_e3 cfg = true →
  opt_cov_source cfg ≠ [] →
  res (pytest_sessionfinish cfg h st) = Ok tt →
  excluded (log (pytest_sessionfinish cfg h st)) = exclude_patterns (os_name h).
Proof.
  intros He3 Hsrc. rewrite pytest_sessionfinish_eq, He3. cbn [negb]. cbv zeta.
  destruct (opt_cov_source cfg) as [|src srcs]; [done|].
  destruct (opt_e3_cov_rewrite cfg) as [[origin_dir new_dir]|].
  - destruct (res (fix_coverage_paths _ _ _ _ _)) as [[]|e]; [|done].
    intros _. cbn [log].
    change (?c :: coverage_calls ?a ?b ?s) with ([c] ++ coverage_calls a b s).
    by rewrite excluded_app, excluded_coverage_calls.
  - intros _. cbn [log]. apply excluded_coverage_calls.
Qed.

(** *** Which patterns are in [exclude_patterns] *)

Lemma differ_by_last (a b : string) : Str.last a ≠ Str.last b → a ≠ b.
Proof. by intros H ->. Qed.

Lemma last_only (o : string) : Str.last (o +:+ "-only") = Some "y"%char.
Proof. by rewrite last_app_cons. Qed.

Lemma last_no_cover (o : string) : Str.last (o +:+ ": no cover") = Some "r"%char.
Proof. by rewrite last_app_cons. Qed.

Lemma only_in_exclude_patterns (os o : string) :
  In (o +:+ "-only") (exclude_patterns os)
  ↔ In o ["darwin"; "linux"; "solaris"; "windows"; "bsd"; "aix"] ∧ o ≠ os.
Proof.
  unfold exclude_patterns. rewrite !in_app_iff, in_map_iff. split.
  - intros [H|[(o' & Heq & Hin)|[H|H]]].
    + exfalso. unfold DEFAULT_EXCLUDE_LIST in H. simpl in H.
      repeat (destruct H as [H|H];
              [apply (f_equal Str.last) in H; rewrite last_only in H;
               discriminate H|]).
      done.
    + apply append_inj_r in Heq as ->.
      apply list_elem_of_In, list_elem_of_filter in Hin as [Hne Hin].
      split; [by apply list_elem_of_In|done].
    + exfalso. destruct (bool_decide (os = "windows")); simpl in H;
        repeat (destruct H as [H|H];
                [apply (f_equal Str.last) in H; rewrite last_only in H;
                 vm_compute in H; discriminate H|]);
        done.
    + exfalso. destruct H as [H|[]].
      apply (f_equal Str.last) in H.
      rewrite last_only, last_no_cover in H. discriminate H.
  - intros [Hin Hne]. right; left. exists o. split; [done|].
    apply list_elem_of_In, list_elem_of_filter. split; [done|].
    by apply list_elem_of_In.
Qed.

(** C5: in a session that gets to the coverage engine, the hook excludes
    [o-only] exactly for the known operating systems [o] other than the
    current one.  On linux it excludes [darwin-only], [windows-only],
    [solaris-only], [bsd-only] and [aix-only], and not [linux-only]. *)
Theorem sessionfinish_excludes_other_os (cfg : config) (h : host) (st : state) :
  opt_e3 cfg = true →
  opt_cov_source cfg ≠ [] →
  res (pytest_sessionfinish cfg h st) = Ok tt →
  (∀ o : string,
     In (o +:+ "-only") (excluded (log (pytest_sessionfinish cfg h st)))
     ↔ In o known_os ∧ o ≠ os_name h)
  ∧ (os_name h = "linux" →
     Forall (λ regex, In regex (excluded (log (pytest_sessionfinish cfg h st))))
       ["darwin-only"; "windows-only"; "solaris-only"; "bsd-only"; "aix-only"]
     ∧ ¬ In "linux-only" (excluded (log (pytest_sessionfinish cfg h st)))).
Proof.
  intros He3 Hsrc Hres. rewrite sessionfinish_excluded by done.
  split; [intros o; apply only_in_exclude_patterns|].
  intros Hos. rewrite Hos. split.
  - apply List.Forall_forall. intros regex Hregex.
    destruct Hregex as [<-|[<-|[<-|[<-|[<-|[]]]]]].
    + apply (only_in_exclude_patterns "linux" "darwin").
      split; [simpl; tauto | discriminate].
    + apply (only_in_exclude_patterns "linux" "windows").
      split; [simpl; tauto | discriminate].
    + apply (only_in_exclude_patterns "linux" "solaris").
      split; [simpl; tauto | discriminate].
    + apply (only_in_exclude_patterns "linux" "bsd").
      split; [simpl; tauto | discriminate].
    + apply (only_in_exclude_patterns "linux" "aix").
      split; [simpl; tauto | discriminate].
  - intros H. apply (only_in_exclude_patterns "linux" "linux") in H.
    by destruct H.
Qed.

Lemma sessionfinish_excludes_other_os_witness :
  In ("darwin" +:+ "-only")
     (excluded (log (pytest_sessionfinish cov_config (host_on "linux") cov_state)))
  ∧ ¬ In ("linux" +:+ "-only")
        (excluded (log (pytest_sessionfinish cov_config (host_on "linux") cov_state))).
Proof.
  destruct (sessionfinish_excludes_other_os cov_config (host_on "linux") cov_state)
    as [Hiff _]; [by vm_compute ..|].
  split.
  - apply Hiff. split; [simpl; tauto | discriminate].
  - intros H. apply Hiff in H. by destruct H.
Defined.

Lemma win32_ne_not_excluded (os : string) :
  os ≠ "windows" → ¬ In win32_ne (exclude_patterns os).
Proof.
  intros Hos. unfold exclude_patterns.
  rewrite bool_decide_false by done. rewrite !in_app_iff, in_map_iff.
  intros [H|[(o' & Heq & _)|[H|H]]].
  - unfold DEFAULT_EXCLUDE_LIST in H. simpl in H.
    repeat (destruct H as [H|H]; [vm_compute in H; discriminate H|]). done.
  - apply (f_equal Str.last) in Heq. rewrite last_only in Heq.
    vm_compute in Heq. discriminate Heq.
  - simpl in H.
    repeat (destruct H as [H|H]; [vm_compute in H; discriminate H|]). done.
  - destruct H as [H|[]]. apply (f_equal Str.last) in H.
    rewrite last_no_cover in H. vm_compute in H. discriminate H.
Qed.

(** C6: in a session that gets to the coverage engine, on windows the hook
    excludes the marker [if sys.platform != "win32":] and does not exclude
    [unix: no cover]; on any other operating system it excludes
    [if sys.platform == "win32":] and [unix: no cover], and not the marker
    of windows. *)
Theorem sessionfinish_platform_markers (cfg : config) (h : host) (st : state) :
  opt_e3 cfg = true →
  opt_cov_source cfg ≠ [] →
  res (pytest_sessionfinish cfg h st) = Ok tt →
  (os_name h = "windows" →
   In win32_ne (excluded (log (pytest_sessionfinish cfg h st)))
   ∧ ¬ In "unix: no cover" (excluded (log (pytest_sessionfinish cfg h st)))
   ∧ ¬ In win32_eq (excluded (log (pytest_sessionfinish cfg h st))))
  ∧ (os_name h ≠ "windows" →
     In win32_eq (excluded (log (pytest_sessionfinish cfg h st)))
     ∧ In "unix: no cover" (excluded (log (pytest_sessionfinish cfg h st)))
     ∧ ¬ In win32_ne (excluded (log (pytest_sessionfinish cfg h st)))).
Proof.
  intros He3 Hsrc Hres. rewrite sessionfinish_excluded by done. split.
  - intros ->.
    split; [|split]; rewrite <- list_elem_of_In;
      apply (bool_decide_unpack _); by vm_compute.
  - intros Hos. split; [|split; [|by apply win32_ne_not_excluded]];
      unfold exclude_patterns; rewrite bool_decide_false by done;
      rewrite !in_app_iff; right; right; left; simpl; tauto.
Qed.

Lemma sessionfinish_platform_markers_witness :
  (In win32_ne
      (excluded (log (pytest_sessionfinish cov_config (host_on "windows") cov_state)))
   ∧ ¬ In "unix: no cover"
         (excluded (log (pytest_sessionfinish cov_config (host_on "windows") cov_state))))
  ∧ (In win32_eq
       (excluded (log (pytest_sessionfinish cov_config (host_on "darwin") cov_state)))
     ∧ In "unix: no cover"
         (excluded (log (pytest_sessionfinish cov_config (host_on "darwin") cov_state)))).
Proof.
  split.
  - destruct (sessionfinish_platform_markers cov_config (host_on "windows") cov_state)
      as [Hwin _]; [by vm_compute ..|].
    destruct Hwin as (H1 & H2 & _); [done|]. by split.
  - destruct (sessionfinish_platform_markers cov_config (host_on "darwin") cov_state)
      as [_ Hother]; [by vm_compute ..|].
    destruct Hother as (H1 & H2 & _); [discriminate|]. by split.
Defined.

(** C7, as stated, fails: with the pair [--e3-cov-rewrite] supplied, the
    hook does not call the rewriter when [--e3] is not set, nor when no
    coverage source is configured. *)
Lemma rewrite_pair_alone_does_not_call :
  (opt_e3_cov_rewrite (Config false ["e3"] (Some ("/build/pkg", "/src")) "/repo")
   = Some ("/build/pkg", "/src")
   ∧ rewriter_calls
       (log (pytest_sessionfinish
               (Config false ["e3"] (Some ("/build/pkg", "/src")) "/repo")
               (host_on "linux") cov_state)) = [])
  ∧ (opt_e3_cov_rewrite (Config true [] (Some ("/build/pkg", "/src")) "/repo")
     = Some ("/build/pkg", "/src")
     ∧ rewriter_calls
         (log (pytest_sessionfinish
                 (Config true [] (Some ("/build/pkg", "/src")) "/repo")
                 (host_on "linux") cov_state)) = []).
Proof. repeat split; by vm_compute. Qed.

Lemma rewriter_calls_app (l1 l2 : list event) :
  rewriter_calls (l1 ++ l2) = rewriter_calls l1 ++ rewriter_calls l2.
Proof. unfold rewriter_calls. apply flat_map_app. Qed.

Lemma rewriter_calls_map (l : list string) :
  rewriter_calls (map Cov_exclude l) = [].
Proof. induction l as [|x l IH]; [done | exact IH]. Qed.

Lemma rewriter_calls_coverage_calls (cfg : config) (h : host) (st : state) :
  rewriter_calls (coverage_calls cfg h st) = [].
Proof.
  unfold coverage_calls.
  change (Coverage_init ?f :: ?l) with ([Coverage_init f] ++ l).
  by rewrite !rewriter_calls_app, rewriter_calls_map.
Qed.

(** C7 (amended): the hook calls the rewriter only in a session with the e3
    option set and a coverage source configured.  In such a session it calls
    it exactly once when the pair is supplied, with the two directories of
    the pair and the path of [.coverage] under the root of the session, and
    not at all when the pair is absent.  In any other session it does not
    call it. *)
Theorem sessionfinish_rewriter_calls (cfg : config) (h : host) (st : state) :
  rewriter_calls (log (pytest_sessionfinish cfg h st))
  = match opt_e3 cfg, opt_cov_source cfg, opt_e3_cov_rewrite cfg with
    | true, _ :: _, Some (origin_dir, new_dir) =>
        [(origin_dir, new_dir, path_div (rootpath cfg) ".coverage")]
    | _, _, _ => []
    end.
Proof.
  rewrite pytest_sessionfinish_eq.
  destruct (opt_e3 cfg); [|done]. cbn [negb]. cbv zeta.
  destruct (opt_cov_source cfg) as [|src srcs]; [done|].
  destruct (opt_e3_cov_rewrite cfg) as [[origin_dir new_dir]|].
  - destruct (res (fix_coverage_paths _ _ _ _ _)) as [[]|e]; [|done].
    cbn [log].
    change (?c :: coverage_calls ?a ?b ?s) with ([c] ++ coverage_calls a b s).
    by rewrite rewriter_calls_app, rewriter_calls_coverage_calls.
  - cbn [log]. apply rewriter_calls_coverage_calls.
Qed.

(** C8: the hook leaves [session.exitstatus] at 3 when the e3 option is set
    and [test_errors] is true, and as it found it otherwise; without the e3
    option it returns at once: the state is untouched and no collaborator is
    called. *)
Theorem sessionfinish_exitstatus (cfg : config) (h : host) (st : state) :
  exitstatus (post (pytest_sessionfinish cfg h st))
  = (if opt_e3 cfg && test_errors st then 3%Z else exitstatus st)
  ∧ (opt_e3 cfg = false → pytest_sessionfinish cfg h st = Out (Ok tt) st []).
Proof.
  rewrite pytest_sessionfinish_eq.
  destruct (opt_e3 cfg); [|done]. cbn [negb andb]. cbv zeta.
  split; [|done].
  assert (exitstatus (if test_errors st then set_exitstatus 3 st else st)
          = if test_errors st then 3%Z else exitstatus st) as Hexit.
  { by destruct (test_errors st). }
  destruct (opt_cov_source cfg) as [|src srcs]; [done|].
  destruct (opt_e3_cov_rewrite cfg) as [[origin_dir new_dir]|]; [|done].
  by destruct (res (fix_coverage_paths _ _ _ _ _)) as [[]|e].
Qed.

(** ** The report hook and the error flag *)

(** The report hook changes files and the flag, nothing else; the flag is
    raised, never lowered, and only for a failed report outside the call
    phase while [RESULTS_DIR] names a directory. *)
Lemma makereport_post (rep : report) (st : state) :
  ∃ fs', post (pytest_runtest_makereport rep st)
         = set_test_errors
             (test_errors st
              || (results_dir_ok st && negb (String.eqb (when rep) "call")
                  && String.eqb (outcome rep) "failed"))
             (set_fs fs' st).
Proof.
  destruct st as [fs0 dirs0 env0 te ci ex].
  unfold pytest_runtest_makereport, results_dir_ok, bind, get.
  cbn [res post log environ dirs test_errors fs].
  destruct (env0 !! "RESULTS_DIR") as [d|]; cbn [res post log].
  2:{ exists fs0. unfold set_test_errors, set_fs. cbn. by rewrite orb_false_r. }
  destruct (truthy d); cbn [negb orb andb].
  2:{ exists fs0. unfold set_test_errors, set_fs. cbn. by rewrite orb_false_r. }
  destruct (bool_decide (d ∈ dirs0)); cbn [negb orb andb].
  2:{ exists fs0. unfold set_test_errors, set_fs. cbn. by rewrite orb_false_r. }
  destruct (String.eqb (when rep) "call"); cbn [negb orb andb].
  - destruct (truthy (longreprtext rep)); cbn [res post log];
      eexists; unfold write_text, append_text, modify, ret, set_test_errors, set_fs;
      cbn; rewrite orb_false_r; reflexivity.
  - destruct (String.eqb (outcome rep) "failed"); cbn [res post log].
    + exists fs0. unfold modify, set_test_errors, set_fs. cbn.
      by rewrite orb_true_r.
    + exists fs0. unfold ret, set_test_errors, set_fs. cbn. by rewrite orb_false_r.
Qed.

Lemma sessionfinish_post (cfg : config) (h : host) (st : state) :
  ∃ fs' z, post (pytest_sessionfinish cfg h st) = set_exitstatus z (set_fs fs' st).
Proof.
  rewrite pytest_sessionfinish_eq.
  assert (∃ z, (if test_errors st then set_exitstatus 3 st else st)
               = set_exitstatus z (set_fs (fs st) st)) as [z Hz].
  { destruct st as [fs0 dirs0 env0 te ci ex]. destruct te; eexists; reflexivity. }
  destruct (opt_e3 cfg); cbn [negb]; cbv zeta.
  2:{ exists (fs st), (exitstatus st). by destruct st. }
  rewrite Hz.
  destruct (opt_cov_source cfg) as [|src srcs]; [by eauto|].
  destruct (opt_e3_cov_rewrite cfg) as [[origin_dir new_dir]|]; [|by eauto].
  destruct (res (fix_coverage_paths _ _ _ _ _)) as [[]|e]; cbn [post];
    eexists _, z; reflexivity.
Qed.

Lemma require_tool_eq (which : string → string) (toolname : string) (st : state) :
  require_tool which toolname st
  = Out (if truthy (which toolname) then Ok tt
         else if IN_CI_MODE st
              then Raise (Failed (toolname +:+ " not available"))
              else Raise (Skipped (toolname +:+ " not available")))
        st [].
Proof.
  unfold require_tool, wrapper, bind, get. cbn [res post log].
  destruct (truthy (which toolname)); cbn [negb]; [done|].
  by destruct (IN_CI_MODE st).
Qed.

Lemma run_hook_globals (c : hook_call) (st : state) :
  test_errors (post (run_hook c st)) = test_errors st || raises_flag c st
  ∧ IN_CI_MODE (post (run_hook c st)) = IN_CI_MODE st.
Proof.
  destruct c as [rep|cfg h|which toolname|fs' dirs' environ']; cbn [run_hook raises_flag].
  - destruct (makereport_post rep st) as [fs' ->]. done.
  - destruct (sessionfinish_post cfg h st) as (fs' & z & ->).
    cbn. by rewrite orb_false_r.
  - rewrite require_tool_eq. cbn. by rewrite orb_false_r.
  - cbn. by rewrite orb_false_r.
Qed.

Lemma run_hooks_app (cs1 cs2 : list hook_call) (st : state) :
  run_hooks (cs1 ++ cs2) st = run_hooks cs2 (run_hooks cs1 st).
Proof. revert st. induction cs1 as [|c cs1 IH]; intros st; [done|]. apply IH. Qed.

Lemma run_hooks_IN_CI_MODE (cs : list hook_call) (st : state) :
  IN_CI_MODE (run_hooks cs st) = IN_CI_MODE st.
Proof.
  revert st. induction cs as [|c cs IH]; intros st; [done|].
  cbn [run_hooks]. rewrite IH. apply run_hook_globals.
Qed.

Lemma run_hooks_keeps_flag (cs : list hook_call) (st : state) :
  test_errors st = true → test_errors (run_hooks cs st) = true.
Proof.
  revert st. induction cs as [|c cs IH]; intros st Hst; [done|].
  cbn [run_hooks]. apply IH.
  destruct (run_hook_globals c st) as [-> _]. by rewrite Hst.
Qed.

Lemma run_hooks_flag_origin (cs : list hook_call) (st : state) :
  test_errors st = false →
  test_errors (run_hooks cs st) = true →
  ∃ cs1 rep cs2,
    cs = cs1 ++ Makereport rep :: cs2
    ∧ test_errors (run_hooks cs1 st) = false
    ∧ results_dir_ok (run_hooks cs1 st) = true
    ∧ when rep ≠ "call"
    ∧ outcome rep = "failed".
Proof.
  revert st. induction cs as [|c cs IH]; intros st Hst Hend.
  { cbn in Hend. congruence. }
  cbn [run_hooks] in Hend.
  destruct (run_hook_globals c st) as [Hflag _].
  destruct (raises_flag c st) eqn:Hr.
  - destruct c as [rep| | |]; try discriminate Hr. cbn [raises_flag] in Hr.
    apply andb_true_iff in Hr as [Hr Hfailed].
    apply andb_true_iff in Hr as [Hdir Hcall].
    exists [], rep, cs. split; [done|]. split; [done|]. split; [done|]. split.
    + intros Heq. rewrite Heq in Hcall. discriminate Hcall.
    + by apply String.eqb_eq.
  - rewrite Hst in Hflag. cbn in Hflag.
    destruct (IH _ Hflag Hend) as (cs1 & rep & cs2 & -> & H1 & H2 & H3 & H4).
    exists (c :: cs1), rep, cs2. done.
Qed.

(** C9: [test_errors] is false when the module is imported.  The report
    hook raises it exactly for a report that failed outside the call phase
    while [RESULTS_DIR] names an existing directory (so never for a failure
    of the call phase, and never without such a directory); no other call
    changes it; once true it stays true; and when it is true after a
    sequence of calls, one of them was such a report. *)
Theorem test_errors_raised_only_by_failed_setup_or_teardown :
  (∀ fs0 dirs0 environ0 exitstatus0,
     test_errors (import_module fs0 dirs0 environ0 exitstatus0) = false)
  ∧ (∀ rep st,
       test_errors (post (pytest_runtest_makereport rep st))
       = test_errors st
         || (results_dir_ok st && negb (String.eqb (when rep) "call")
             && String.eqb (outcome rep) "failed"))
  ∧ (∀ c st, (∀ rep, c ≠ Makereport rep) →
       test_errors (post (run_hook c st)) = test_errors st)
  ∧ (∀ cs st, test_errors st = true → test_errors (run_hooks cs st) = true)
  ∧ (∀ cs fs0 dirs0 environ0 exitstatus0,
       test_errors (run_hooks cs (import_module fs0 dirs0 environ0 exitstatus0))
       = true →
       ∃ cs1 rep cs2,
         cs = cs1 ++ Makereport rep :: cs2
         ∧ results_dir_ok
             (run_hooks cs1 (import_module fs0 dirs0 environ0 exitstatus0)) = true
         ∧ when rep ≠ "call"
         ∧ outcome rep = "failed").
Proof.
  split; [done|]. split.
  { intros rep st. by destruct (makereport_post rep st) as [fs' ->]. }
  split.
  { intros c st Hc. destruct (run_hook_globals c st) as [-> _].
    destruct c as [rep| | |]; cbn [raises_flag]; try apply orb_false_r.
    by destruct (Hc rep). }
  split; [apply run_hooks_keeps_flag|].
  intros cs fs0 dirs0 environ0 exitstatus0 Hend.
  destruct (run_hooks_flag_origin cs
              (import_module fs0 dirs0 environ0 exitstatus0) eq_refl Hend)
    as (cs1 & rep & cs2 & Hcs & _ & Hdir & Hwhen & Hout).
  by exists cs1, rep, cs2.
Qed.

(** C10: wherever in a session the fixture of [require_tool toolname] runs,
    when the tool is not found it fails the test with
    [toolname not available] if [CI] was in the environment when the module
    was imported, and skips it with the same message if it was not; when the
    tool is found it returns, and in every case it leaves the state as it
    is. *)
Theorem require_tool_fails_or_skips
    (which : string → string) (toolname : string)
    (fs0 : gmap string content) (dirs0 : gset string)
    (environ0 : gmap string string) (exitstatus0 : Z) (cs : list hook_call) :
  let st := run_hooks cs (import_module fs0 dirs0 environ0 exitstatus0) in
  (which toolname = "" → is_Some (environ0 !! "CI") →
   res (require_tool which toolname st)
   = Raise (Failed (toolname +:+ " not available")))
  ∧ (which toolname = "" → environ0 !! "CI" = None →
     res (require_tool which toolname st)
     = Raise (Skipped (toolname +:+ " not available")))
  ∧ (which toolname ≠ "" → res (require_tool which toolname st) = Ok tt)
  ∧ post (require_tool which toolname st) = st.
Proof.
  intros st. rewrite require_tool_eq. cbn [res post].
  assert (IN_CI_MODE st = bool_decide (is_Some (environ0 !! "CI"))) as Hci.
  { unfold st. by rewrite run_hooks_IN_CI_MODE. }
  rewrite Hci. repeat split.
  - intros -> HCI. cbn [truthy]. by rewrite bool_decide_true.
  - intros -> HCI. cbn [truthy]. rewrite bool_decide_false; [done|].
    rewrite HCI. by intros [? [=]].
  - intros Hfound. by destruct (which toolname).
Qed.

Lemma require_tool_fails_or_skips_witness :
  res (require_tool (λ tool, if String.eqb tool "git" then "/usr/bin/git" else "")
         "svn" (import_module ∅ ∅ {[ "CI" := "true" ]} 0))
  = Raise (Failed "svn not available")
  ∧ res (require_tool (λ tool, if String.eqb tool "git" then "/usr/bin/git" else "")
           "svn" (import_module ∅ ∅ ∅ 0))
    = Raise (Skipped "svn not available")
  ∧ res (require_tool (λ tool, if String.eqb tool "git" then "/usr/bin/git" else "")
           "git" (import_module ∅ ∅ ∅ 0))
    = Ok tt.
Proof.
  split; [|split].
  - destruct (require_tool_fails_or_skips
                (λ tool, if String.eqb tool "git" then "/usr/bin/git" else "")
                "svn" ∅ ∅ {[ "CI" := "true" ]} 0 []) as (Hfail & _).
    apply Hfail; [reflexivity|]. exists "true". by vm_compute.
  - destruct (require_tool_fails_or_skips
                (λ tool, if String.eqb tool "git" then "/usr/bin/git" else "")
                "svn" ∅ ∅ ∅ 0 []) as (_ & Hskip & _).
    apply Hskip; reflexivity.
  - destruct (require_tool_fails_or_skips
                (λ tool, if String.eqb tool "git" then "/usr/bin/git" else "")
                "git" ∅ ∅ ∅ 0 []) as (_ & _ & Hrun & _).
    apply Hrun. discriminate.
Defined.

Lemma test_errors_raised_only_by_failed_setup_or_teardown_witness :
  test_errors
    (post (pytest_runtest_makereport
             (Report "setup" "failed" "tests/test_a.py::test_y" "boom")
             (State ∅ {[ "/results" ]} {[ "RESULTS_DIR" := "/results" ]}
                false false 0))) = true
  ∧ test_errors
      (post (pytest_runtest_makereport
               (Report "call" "failed" "tests/test_a.py::test_x" "boom")
               (State ∅ {[ "/results" ]} {[ "RESULTS_DIR" := "/results" ]}
                  false false 0))) = false
  ∧ test_errors
      (post (pytest_runtest_makereport
               (Report "setup" "failed" "tests/test_a.py::test_y" "boom")
               (import_module ∅ ∅ ∅ 0))) = false.
Proof.
  destruct test_errors_raised_only_by_failed_setup_or_teardown
    as (_ & Hstep & _).
  rewrite !Hstep. repeat split; by vm_compute.
Defined.

Lemma sessionfinish_exitstatus_witness :
  exitstatus (post (pytest_sessionfinish cov_config (host_on "linux")
                      (set_test_errors true cov_state))) = 3%Z
  ∧ pytest_sessionfinish
      (Config false ["e3"] (Some ("/build/pkg", "/src")) "/repo")
      (host_on "linux") (set_test_errors true cov_state)
    = Out (Ok tt) (set_test_errors true cov_state) [].
Proof.
  split.
  - destruct (sessionfinish_exitstatus cov_config (host_on "linux")
                (set_test_errors true cov_state)) as [-> _].
    reflexivity.
  - destruct (sessionfinish_exitstatus
                (Config false ["e3"] (Some ("/build/pkg", "/src")) "/repo")
                (host_on "linux") (set_test_errors true cov_state)) as [_ Hret].
    by apply Hret.
Defined.

(** ** The files the report hook writes *)

Lemma occurs_cons (c a : ascii) (s : string) :
  occurs c (String a s) ↔ a = c ∨ occurs c s.
Proof. reflexivity. Qed.

Lemma occurs_app (c : ascii) (s t : string) :
  occurs c (s +:+ t) ↔ occurs c s ∨ occurs c t.
Proof.
  induction s as [|a s IH].
  - rewrite append_nil. unfold occurs at 2. simpl. tauto.
  - rewrite append_cons, !occurs_cons, IH. tauto.
Qed.

(** [replace] brings in no character: what its result holds comes from the
    string or from the replacement. *)
Lemma replace_from_occurs (c : ascii) (old new s : string) (skip : nat) :
  occurs c (Str.replace_from skip old new s) → occurs c s ∨ occurs c new.
Proof.
  revert skip. induction s as [|a s IH]; intros skip H.
  - by left.
  - cbn [Str.replace_from] in H. destruct skip as [|k].
    + destruct (Str.startswith (String a s) old).
      * apply occurs_app in H as [H|H]; [by right|].
        destruct (IH _ H) as [H'|H']; [left; apply occurs_cons; by right|by right].
      * apply occurs_cons in H as [H|H]; [left; apply occurs_cons; by left|].
        destruct (IH _ H) as [H'|H']; [left; apply occurs_cons; by right|by right].
    + destruct (IH _ H) as [H'|H']; [left; apply occurs_cons; by right|by right].
Qed.

(** Replacing a single character removes it, when the replacement does not
    hold it. *)
Lemma replace_char_gone (c : ascii) (new s : string) :
  ¬ occurs c new → ¬ occurs c (Str.replace s (String c EmptyString) new).
Proof.
  intros Hnew. unfold Str.replace. induction s as [|a s IH]; [by intros []|].
  assert (Str.startswith (String a s) (String c "") = Ascii.eqb c a) as Hsw.
  { cbn [Str.startswith]. destruct (Ascii.eqb c a); by destruct s. }
  cbn [Str.replace_from]. rewrite Hsw.
  destruct (Ascii.eqb c a) eqn:E; intros H.
  - apply occurs_app in H as [H|H]; done.
  - apply occurs_cons in H as [->|H]; [|done].
    by rewrite Ascii.eqb_refl in E.
Qed.

Lemma test_name_no_separator (nodeid : string) :
  ¬ occurs "/"%char (test_name nodeid).
Proof.
  unfold test_name, Str.replace at 1. intros H.
  apply replace_from_occurs in H as [H|H].
  - revert H. apply (replace_char_gone "/"%char "." nodeid).
    unfold occurs. simpl. intros [H|[]]. discriminate H.
  - unfold occurs in H. simpl in H. destruct H as [H|[H|[]]]; discriminate H.
Qed.

Lemma makereport_eq (rep : report) (st : state) :
  pytest_runtest_makereport rep st
  = Out (Ok tt)
      (if results_dir_ok st then
         if String.eqb (when rep) "call" then set_fs (report_written rep st) st
         else if String.eqb (outcome rep) "failed" then set_test_errors true st
              else st
       else st) [].
Proof.
  unfold pytest_runtest_makereport, results_dir_ok, report_written, results_dir,
    bind, get.
  cbn [res post log].
  destruct (environ st !! "RESULTS_DIR") as [d|]; cbn [res post log default from_option id]; [|done].
  destruct (truthy d); cbn [negb orb andb]; [|done].
  destruct (bool_decide (d ∈ dirs st)); cbn [negb orb andb]; [|done].
  destruct (String.eqb (when rep) "call").
  - unfold test_name, results_line, text_at, test_name.
    destruct (truthy (longreprtext rep)); cbn [res post log];
      unfold write_text, append_text, modify, ret; cbn [res post log app];
      by destruct st.
  - by destruct (String.eqb (outcome rep) "failed").
Qed.

Lemma append_assoc (a b c : string) : (a +:+ b) +:+ c = a +:+ b +:+ c.
Proof.
  induction a as [|x a IH]; [done|]. by rewrite !append_cons, IH.
Qed.

Lemma append_empty_r (s : string) : s +:+ "" = s.
Proof. induction s as [|a s IH]; [done|]. by rewrite append_cons, IH. Qed.

Lemma startswith_sep (s : string) :
  Str.startswith s "/" = true → occurs "/"%char s.
Proof.
  destruct s as [|a s]; [done|]. cbn [Str.startswith].
  destruct (Ascii.eqb "/" a) eqn:E; [|by destruct s].
  intros _. apply Ascii.eqb_eq in E as <-. by left.
Qed.

(** A leaf with no separator is joined right after the directory. *)
Lemma os_path_join_leaf (d leaf : string) :
  truthy d = true → ¬ occurs "/"%char leaf →
  os_path_join d leaf = dir_prefix d +:+ leaf.
Proof.
  intros Hd Hleaf. unfold os_path_join, dir_prefix.
  destruct (Str.startswith leaf "/") eqn:E.
  { destruct Hleaf. by apply startswith_sep. }
  rewrite Hd. cbn [negb orb].
  destruct (bool_decide (Str.last d = Some "/"%char)); [done|].
  by rewrite append_assoc.
Qed.

Lemma diff_leaf_no_separator (nodeid : string) :
  ¬ occurs "/"%char (test_name nodeid +:+ ".diff").
Proof.
  intros H. apply occurs_app in H as [H|H].
  - by apply test_name_no_separator in H.
  - unfold occurs in H. simpl in H. intuition discriminate.
Qed.

Lemma results_leaf_no_separator : ¬ occurs "/"%char "results".
Proof. unfold occurs. simpl. intuition discriminate. Qed.

(** The diff file of a test is never the results file. *)
Lemma diff_path_not_results (d nodeid : string) :
  truthy d = true →
  os_path_join d (test_name nodeid +:+ ".diff") ≠ os_path_join d "results".
Proof.
  intros Hd.
  rewrite !os_path_join_leaf
    by auto using diff_leaf_no_separator, results_leaf_no_separator.
  intros H. apply (inj (String.app _)) in H.
  apply (f_equal Str.last) in H. rewrite last_app_cons in H.
  vm_compute in H. discriminate H.
Qed.

Lemma results_dir_ok_truthy (st : state) :
  results_dir_ok st = true →
  truthy (results_dir st) = true ∧ results_dir st ∈ dirs st.
Proof.
  unfold results_dir_ok, results_dir.
  destruct (environ st !! "RESULTS_DIR") as [d|]; [|done]. cbn.
  intros [H1 H2]%andb_true_iff. split; [done|]. by apply bool_decide_eq_true in H2.
Qed.

(** X1: without a usable results directory the report hook does nothing. *)
Theorem makereport_without_results_dir (rep : report) (st : state) :
  (environ st !! "RESULTS_DIR" = None
   ∨ environ st !! "RESULTS_DIR" = Some ""
   ∨ ∃ d, environ st !! "RESULTS_DIR" = Some d ∧ d ∉ dirs st) →
  pytest_runtest_makereport rep st = Out (Ok tt) st [].
Proof.
  intros H. rewrite makereport_eq.
  assert (results_dir_ok st = false) as ->; [|done].
  unfold results_dir_ok. destruct H as [->|[->|(d & -> & Hd)]]; [done..|].
  rewrite bool_decide_false by done. apply andb_false_r.
Qed.

Lemma makereport_without_results_dir_witness :
  pytest_runtest_makereport
    (Report "setup" "failed" "tests/test_a.py::test_x" "boom")
    (State ∅ ∅ {[ "RESULTS_DIR" := "/nowhere" ]} false false 0)
  = Out (Ok tt) (State ∅ ∅ {[ "RESULTS_DIR" := "/nowhere" ]} false false 0) [].
Proof.
  apply makereport_without_results_dir.
  right; right. exists "/nowhere". split; [by vm_compute|].
  apply not_elem_of_empty.
Defined.

(** X2: a report outside the call phase writes no file. *)
Theorem makereport_outside_call_writes_nothing (rep : report) (st : state) :
  when rep ≠ "call" →
  fs (post (pytest_runtest_makereport rep st)) = fs st
  ∧ res (pytest_runtest_makereport rep st) = Ok tt.
Proof.
  intros Hwhen. rewrite makereport_eq. cbn [res post]. split; [|done].
  assert (String.eqb (when rep) "call" = false) as ->.
  { apply String.eqb_neq. done. }
  destruct (results_dir_ok st); [|done].
  by destruct (String.eqb (outcome rep) "failed").
Qed.

Lemma makereport_outside_call_writes_nothing_witness :
  fs (post (pytest_runtest_makereport
              (Report "teardown" "failed" "tests/test_a.py::test_x" "boom")
              (State ∅ {[ "/results" ]} {[ "RESULTS_DIR" := "/results" ]}
                 false false 0))) = ∅.
Proof.
  destruct (makereport_outside_call_writes_nothing
              (Report "teardown" "failed" "tests/test_a.py::test_x" "boom")
              (State ∅ {[ "/results" ]} {[ "RESULTS_DIR" := "/results" ]}
                 false false 0)) as [H _]; [discriminate|].
  exact H.
Defined.

Lemma report_written_results (rep : report) (st : state) :
  truthy (results_dir st) = true →
  text_at (report_written rep st) (os_path_join (results_dir st) "results")
  = text_at (fs st) (os_path_join (results_dir st) "results") +:+ results_line rep.
Proof.
  intros Hd. unfold report_written. cbv zeta. unfold text_at at 1.
  rewrite lookup_insert_eq. cbn [from_option text_of]. f_equal.
  destruct (truthy (longreprtext rep)); [|done].
  unfold text_at. rewrite lookup_insert_ne; [done|].
  by apply diff_path_not_results.
Qed.

Lemma makereport_keeps_results_dir (rep : report) (st : state) :
  results_dir (post (pytest_runtest_makereport rep st)) = results_dir st
  ∧ results_dir_ok (post (pytest_runtest_makereport rep st)) = results_dir_ok st.
Proof.
  destruct (makereport_post rep st) as [fs' ->]. by destruct st.
Qed.

(** X3: the results file is an append-only log: after any sequence of
    reports it holds what it held before, followed by one line
    [name:OUTCOME] for each report of the call phase, in order. *)
Theorem results_file_accumulates (reps : list report) (st : state) :
  results_dir_ok st = true →
  text_at (fs (after_reports reps st)) (os_path_join (results_dir st) "results")
  = text_at (fs st) (os_path_join (results_dir st) "results")
    +:+ results_lines reps.
Proof.
  revert st. induction reps as [|rep reps IH]; intros st Hok.
  { unfold results_lines. cbn. by rewrite append_empty_r. }
  unfold after_reports. cbn [map run_hooks run_hook].
  fold (after_reports reps (post (pytest_runtest_makereport rep st))).
  destruct (makereport_keeps_results_dir rep st) as [Hdir Hok'].
  rewrite <- Hdir, IH by congruence. rewrite Hdir.
  rewrite makereport_eq, Hok. cbn [post]. unfold results_lines.
  cbn [List.filter].
  destruct (String.eqb (when rep) "call").
  - cbn [map fold_right fs set_fs].
    rewrite report_written_results by (by apply results_dir_ok_truthy).
    by rewrite append_assoc.
  - by destruct (String.eqb (outcome rep) "failed").
Qed.

Lemma results_file_accumulates_witness :
  text_at
    (fs (after_reports
           [Report "call" "passed" "tests/test_a.py::test_x" "";
            Report "setup" "failed" "tests/test_a.py::test_y" "boom";
            Report "call" "failed" "tests/sub/test_b.py::TestC::test_z" "assert"]
           (State {[ "/results/results" := Text ("old:PASSED" +:+ newline) ]}
              {[ "/results" ]} {[ "RESULTS_DIR" := "/results" ]} false false 0)))
    "/results/results"
  = "old:PASSED" +:+ newline
    +:+ "tests.test_a.py--test_x:PASSED" +:+ newline
    +:+ "tests.sub.test_b.py--TestC--test_z:FAILED" +:+ newline.
Proof.
  exact (results_file_accumulates
           [Report "call" "passed" "tests/test_a.py::test_x" "";
            Report "setup" "failed" "tests/test_a.py::test_y" "boom";
            Report "call" "failed" "tests/sub/test_b.py::TestC::test_z" "assert"]
           (State {[ "/results/results" := Text ("old:PASSED" +:+ newline) ]}
              {[ "/results" ]} {[ "RESULTS_DIR" := "/results" ]} false false 0)
           eq_refl).
Defined.

(** X4: for a report of the call phase, a non-empty failure text is written
    as the whole content of the diff file of the test; with an empty text no
    diff file is written and an older one stays as it is. *)
Theorem makereport_diff_file (rep : report) (st : state) :
  results_dir_ok st = true →
  when rep = "call" →
  fs (post (pytest_runtest_makereport rep st))
    !! os_path_join (results_dir st) (test_name (nodeid rep) +:+ ".diff")
  = if truthy (longreprtext rep)
    then Some (Text (longreprtext rep))
    else fs st !! os_path_join (results_dir st) (test_name (nodeid rep) +:+ ".diff").
Proof.
  intros Hok Hwhen. rewrite makereport_eq, Hok, Hwhen.
  change (String.eqb "call" "call") with true.
  cbn [post fs set_fs]. unfold report_written. cbv zeta.
  rewrite lookup_insert_ne
    by (apply not_eq_sym, diff_path_not_results; by apply results_dir_ok_truthy).
  destruct (truthy (longreprtext rep)); [|done]. by rewrite lookup_insert_eq.
Qed.

Lemma makereport_diff_file_witness :
  fs (post (pytest_runtest_makereport
              (Report "call" "failed" "tests/test_a.py::test_x" "assert 1 == 2")
              (State ∅ {[ "/results" ]} {[ "RESULTS_DIR" := "/results" ]}
                 false false 0)))
    !! "/results/tests.test_a.py--test_x.diff"
  = Some (Text "assert 1 == 2").
Proof.
  exact (makereport_diff_file
           (Report "call" "failed" "tests/test_a.py::test_x" "assert 1 == 2")
           (State ∅ {[ "/results" ]} {[ "RESULTS_DIR" := "/results" ]}
              false false 0) eq_refl eq_refl).
Defined.

(** X5: whatever the node id of the test, every file the report hook creates
    or changes lies directly in the results directory: its path is the
    directory followed by a name that holds no [/]. *)
Theorem makereport_writes_inside_results_dir
    (rep : report) (st : state) (path : string) :
  fs (post (pytest_runtest_makereport rep st)) !! path ≠ fs st !! path →
  ∃ leaf, path = dir_prefix (results_dir st) +:+ leaf ∧ ¬ occurs "/"%char leaf.
Proof.
  rewrite makereport_eq. cbn [post].
  destruct (results_dir_ok st) eqn:Hok; [|done].
  destruct (results_dir_ok_truthy st Hok) as [Hd _].
  destruct (String.eqb (when rep) "call").
  2:{ by destruct (String.eqb (outcome rep) "failed"). }
  cbn [fs set_fs]. unfold report_written. cbv zeta. intros Hne.
  destruct (decide (path = os_path_join (results_dir st) "results")) as [->|Hres].
  { exists "results". split; [|apply results_leaf_no_separator].
    apply os_path_join_leaf; [done|apply results_leaf_no_separator]. }
  rewrite lookup_insert_ne in Hne by done.
  destruct (truthy (longreprtext rep)); [|done].
  destruct (decide (path = os_path_join (results_dir st)
                             (test_name (nodeid rep) +:+ ".diff"))) as [->|Hdiff].
  - exists (test_name (nodeid rep) +:+ ".diff").
    split; [|apply diff_leaf_no_separator].
    apply os_path_join_leaf; [done|apply diff_leaf_no_separator].
  - by rewrite lookup_insert_ne in Hne.
Qed.

Lemma makereport_writes_inside_results_dir_witness :
  ∃ leaf,
    "/results/......etc.passwd--x.diff"
    = dir_prefix (results_dir
                    (State ∅ {[ "/results" ]} {[ "RESULTS_DIR" := "/results" ]}
                       false false 0)) +:+ leaf
    ∧ ¬ occurs "/"%char leaf.
Proof.
  apply (makereport_writes_inside_results_dir
           (Report "call" "failed" "../../etc/passwd::x" "boom")
           (State ∅ {[ "/results" ]} {[ "RESULTS_DIR" := "/results" ]}
              false false 0) "/results/......etc.passwd--x.diff").
  intros H. vm_compute in H. discriminate H.
Defined.

(** ** More on the session-finish hook *)

(** X6: when the rewriter raises, the hook raises the same exception right
    after calling it: the coverage engine is not called at all, no report is
    produced, and the exit status has already been set. *)
Theorem sessionfinish_rewrite_error_stops_hook
    (cfg : config) (h : host) (st : state) (origin_dir new_dir : string) (e : exn) :
  opt_e3 cfg = true →
  opt_cov_source cfg ≠ [] →
  opt_e3_cov_rewrite cfg = Some (origin_dir, new_dir) →
  res (fix_coverage_paths origin_dir new_dir (cov_file_of cfg) (tmp_name h) (fs st))
  = Raise e →
  res (pytest_sessionfinish cfg h st) = Raise e
  ∧ log (pytest_sessionfinish cfg h st)
    = [Call_fix_coverage_paths origin_dir new_dir (cov_file_of cfg)]
  ∧ exitstatus (post (pytest_sessionfinish cfg h st))
    = (if test_errors st then 3%Z else exitstatus st).
Proof.
  intros He3 Hsrc Hpair Hfix. rewrite pytest_sessionfinish_eq, He3, Hpair.
  cbn [negb]. cbv zeta.
  destruct (opt_cov_source cfg) as [|src srcs]; [done|].
  assert (fs (if test_errors st then set_exitstatus 3 st else st) = fs st) as ->.
  { by destruct (test_errors st). }
  unfold cov_file_of in Hfix. rewrite Hfix. cbn [res post log].
  repeat split. by destruct (test_errors st).
Qed.

Lemma sessionfinish_rewrite_error_stops_hook_witness :
  res (pytest_sessionfinish
         (Config true ["e3"] (Some ("/build/pkg", "/src")) "/repo")
         (host_on "linux") (set_test_errors true (import_module ∅ ∅ ∅ 0)))
  = Raise (FileNotFoundError "/repo/tmpq0")
  ∧ log (pytest_sessionfinish
           (Config true ["e3"] (Some ("/build/pkg", "/src")) "/repo")
           (host_on "linux") (set_test_errors true (import_module ∅ ∅ ∅ 0)))
    = [Call_fix_coverage_paths "/build/pkg" "/src" "/repo/.coverage"]
  ∧ exitstatus
      (post (pytest_sessionfinish
               (Config true ["e3"] (Some ("/build/pkg", "/src")) "/repo")
               (host_on "linux") (set_test_errors true (import_module ∅ ∅ ∅ 0))))
    = 3%Z.
Proof.
  apply (sessionfinish_rewrite_error_stops_hook
           (Config true ["e3"] (Some ("/build/pkg", "/src")) "/repo")
           (host_on "linux") (set_test_errors true (import_module ∅ ∅ ∅ 0))
           "/build/pkg" "/src" (FileNotFoundError "/repo/tmpq0"));
    by vm_compute.
Defined.

Lemma sessionfinish_log_eq (cfg : config) (h : host) (st : state) :
  opt_e3 cfg = true →
  opt_cov_source cfg ≠ [] →
  res (pytest_sessionfinish cfg h st) = Ok tt →
  log (pytest_sessionfinish cfg h st)
  = rewrite_call cfg
    ++ [Coverage_init (cov_file_of cfg)]
    ++ map Cov_exclude (exclude_patterns (os_name h))
    ++ [Cov_load;
        Cov_html_report (omitted cfg h (post (pytest_sessionfinish cfg h st)));
        Cov_report (omitted cfg h (post (pytest_sessionfinish cfg h st))) 3;
        Cov_xml_report].
Proof.
  intros He3 Hsrc. rewrite pytest_sessionfinish_eq, He3. cbn [negb]. cbv zeta.
  unfold rewrite_call, cov_file_of.
  destruct (opt_cov_source cfg) as [|src srcs]; [done|].
  destruct (opt_e3_cov_rewrite cfg) as [[origin_dir new_dir]|].
  - destruct (res (fix_coverage_paths _ _ _ _ _)) as [[]|e]; [|done].
    intros _. by cbn [log post].
  - intros _. by cbn [log post].
Qed.

(** X7: in a session that gets through the hook, the calls are, in order: the
    call of the rewriter if the pair was given, the construction of
    [Coverage] on [.coverage] under the root, one [exclude] for each pattern,
    [load], and then the HTML report, the text report with precision 3 and
    the XML report, the first two with one and the same omit list. *)
Theorem sessionfinish_call_order (cfg : config) (h : host) (st : state) :
  opt_e3 cfg = true →
  opt_cov_source cfg ≠ [] →
  res (pytest_sessionfinish cfg h st) = Ok tt →
  log (pytest_sessionfinish cfg h st)
  = rewrite_call cfg
    ++ [Coverage_init (cov_file_of cfg)]
    ++ map Cov_exclude (exclude_patterns (os_name h))
    ++ [Cov_load;
        Cov_html_report (omitted cfg h (post (pytest_sessionfinish cfg h st)));
        Cov_report (omitted cfg h (post (pytest_sessionfinish cfg h st))) 3;
        Cov_xml_report].
Proof.
  intros He3 Hsrc Hres. by apply sessionfinish_log_eq.
Qed.

Lemma sessionfinish_call_order_witness :
  log (pytest_sessionfinish cov_config (host_on "windows") cov_state)
  = [Coverage_init "/repo/.coverage";
     Cov_exclude "all: no cover"; Cov_exclude "if TYPE_CHECKING:";
     Cov_exclude "@abstractmethod"; Cov_exclude "# os-specific";
     Cov_exclude "defensive code"; Cov_exclude "assert_never()";
     Cov_exclude "darwin-only"; Cov_exclude "linux-only";
     Cov_exclude "solaris-only"; Cov_exclude "bsd-only"; Cov_exclude "aix-only";
     Cov_exclude win32_ne; Cov_exclude "windows: no cover";
     Cov_load; Cov_html_report []; Cov_report [] 3; Cov_xml_report].
Proof.
  rewrite (sessionfinish_call_order cov_config (host_on "windows") cov_state)
    by (by vm_compute).
  by vm_compute.
Defined.

Lemma no_cover_in_exclude_patterns (os o : string) :
  In (o +:+ ": no cover") (exclude_patterns os)
  ↔ o = os ∨ o = "all" ∨ (o = "unix" ∧ os ≠ "windows").
Proof.
  unfold exclude_patterns. rewrite !in_app_iff, in_map_iff. split.
  - intros [H|[(o' & Heq & _)|[H|H]]].
    + right; left. unfold DEFAULT_EXCLUDE_LIST in H.
      destruct H as [H|H].
      { apply (append_inj_r ": no cover" "all" o) in H. done. }
      exfalso. simpl in H.
      repeat (destruct H as [H|H];
              [apply (f_equal Str.last) in H; rewrite last_no_cover in H;
               vm_compute in H; discriminate H|]).
      done.
    + exfalso. apply (f_equal Str.last) in Heq.
      rewrite last_only, last_no_cover in Heq. discriminate Heq.
    + destruct (bool_decide (os = "windows")) eqn:E.
      * exfalso. destruct H as [H|[]]. apply (f_equal Str.last) in H.
        rewrite last_no_cover in H. vm_compute in H. discriminate H.
      * apply bool_decide_eq_false in E. destruct H as [H|[H|[]]].
        { exfalso. apply (f_equal Str.last) in H.
          rewrite last_no_cover in H. vm_compute in H. discriminate H. }
        apply (append_inj_r ": no cover" "unix" o) in H. by right; right.
    + destruct H as [H|[]]. apply append_inj_r in H. by left.
  - intros [->|[->|[-> Hos]]].
    + do 3 right. by left.
    + left. by left.
    + right; right; left. rewrite bool_decide_false by done. right. by left.
Qed.

(** X8: the hook always excludes the six base patterns, and of the markers
    [<name>: no cover] exactly those of the current operating system, of
    [all], and, off windows, of [unix]; so the marker of any other system is
    not excluded. *)
Theorem sessionfinish_no_cover_markers (cfg : config) (h : host) (st : state) :
  opt_e3 cfg = true →
  opt_cov_source cfg ≠ [] →
  res (pytest_sessionfinish cfg h st) = Ok tt →
  Forall (λ regex, In regex (excluded (log (pytest_sessionfinish cfg h st))))
    DEFAULT_EXCLUDE_LIST
  ∧ ∀ o : string,
      In (o +:+ ": no cover") (excluded (log (pytest_sessionfinish cfg h st)))
      ↔ o = os_name h ∨ o = "all" ∨ (o = "unix" ∧ os_name h ≠ "windows").
Proof.
  intros He3 Hsrc Hres. rewrite sessionfinish_excluded by done. split.
  - apply List.Forall_forall. intros regex Hin.
    unfold exclude_patterns. apply in_app_iff. by left.
  - apply no_cover_in_exclude_patterns.
Qed.

Lemma sessionfinish_no_cover_markers_witness :
  In ("linux" +:+ ": no cover")
     (excluded (log (pytest_sessionfinish cov_config (host_on "linux") cov_state)))
  ∧ ¬ In ("windows" +:+ ": no cover")
        (excluded (log (pytest_sessionfinish cov_config (host_on "linux") cov_state))).
Proof.
  destruct (sessionfinish_no_cover_markers cov_config (host_on "linux") cov_state)
    as [_ Hiff]; [by vm_compute ..|].
  split.
  - apply Hiff. by left.
  - intros H. apply Hiff in H. cbn [os_name host_on] in H.
    destruct H as [H|[H|[H _]]]; discriminate H.
Defined.

(** X9: when the pair is given and the database at [.coverage] loads, the
    rewriter the hook calls succeeds: it leaves the rewritten database at
    that path and changes no other file; and the call the hook makes next
    builds the coverage engine on that very file. *)
Theorem sessionfinish_reports_on_rewritten_database
    (cfg : config) (h : host) (st : state) (origin_dir new_dir : string)
    (d : gmap string (gset nat)) :
  opt_e3 cfg = true →
  opt_cov_source cfg ≠ [] →
  opt_e3_cov_rewrite cfg = Some (origin_dir, new_dir) →
  fs st !! tmp_name h = None →
  fs st !! cov_file_of cfg = Some (Database d) →
  fix_coverage_paths origin_dir new_dir (cov_file_of cfg) (tmp_name h) (fs st)
  = Out (Ok tt)
      (<[cov_file_of cfg := Database (rewritten origin_dir new_dir d)]> (fs st)) []
  ∧ ∃ calls,
      log (pytest_sessionfinish cfg h st)
      = Call_fix_coverage_paths origin_dir new_dir (cov_file_of cfg)
        :: Coverage_init (cov_file_of cfg) :: calls.
Proof.
  intros He3 Hsrc Hpair Htmp Hdb.
  split; [by apply fix_coverage_paths_ok|].
  rewrite pytest_sessionfinish_eq, He3, Hpair. cbn [negb]. cbv zeta.
  destruct (opt_cov_source cfg) as [|src srcs]; [done|].
  assert (fs (if test_errors st then set_exitstatus 3 st else st) = fs st) as ->.
  { by destruct (test_errors st). }
  unfold cov_file_of in *.
  rewrite (fix_coverage_paths_ok _ _ _ _ _ d) by done. cbn [res post log].
  unfold coverage_calls. eauto.
Qed.

Lemma sessionfinish_reports_on_rewritten_database_witness :
  post (fix_coverage_paths "/build/pkg" "/src" "/repo/.coverage" "/repo/tmpq0"
          {[ "/repo/.coverage" := Database {[ "/build/pkg/mod.py" := {[1; 2; 3]} ]} ]})
  = {[ "/repo/.coverage" := Database {[ "/src/mod.py" := {[1; 2; 3]} ]} ]}
  ∧ ∃ calls,
      log (pytest_sessionfinish
             (Config true ["e3"] (Some ("/build/pkg", "/src")) "/repo")
             (host_on "linux")
             (import_module
                {[ "/repo/.coverage" := Database {[ "/build/pkg/mod.py" := {[1; 2; 3]} ]} ]}
                ∅ ∅ 0))
      = Call_fix_coverage_paths "/build/pkg" "/src" "/repo/.coverage"
        :: Coverage_init "/repo/.coverage" :: calls.
Proof.
  destruct (sessionfinish_reports_on_rewritten_database
              (Config true ["e3"] (Some ("/build/pkg", "/src")) "/repo")
              (host_on "linux")
              (import_module
                 {[ "/repo/.coverage" := Database {[ "/build/pkg/mod.py" := {[1; 2; 3]} ]} ]}
                 ∅ ∅ 0)
              "/build/pkg" "/src" {[ "/build/pkg/mod.py" := {[1; 2; 3]} ]})
    as (Hfix & calls & Hlog); [by vm_compute ..|].
  split.
  - change (cov_file_of (Config true ["e3"] (Some ("/build/pkg", "/src")) "/repo"))
      with "/repo/.coverage" in Hfix.
    change (tmp_name (host_on "linux")) with "/repo/tmpq0" in Hfix.
    cbn [fs import_module] in Hfix. rewrite Hfix. by vm_compute.
  - exists calls. exact Hlog.
Defined.

Lemma rstrip_no_trailing_space (s : string) : no_trailing_space (Str.rstrip s).
Proof.
  unfold no_trailing_space. induction s as [|a s IH]; intros c; [done|].
  cbn [Str.rstrip]. destruct (Str.rstrip s) as [|b r] eqn:E.
  - destruct (Str.is_space a) eqn:Ha; [done|]. cbn. by intros [= <-].
  - intros H. apply IH. exact H.
Qed.

Lemma rstrip_stripped_of (line : string) : stripped_of line (Str.rstrip line).
Proof.
  split; [apply rstrip_no_trailing_space|].
  induction line as [|a s (ws & Hs & Hws)].
  { exists "". split; [done|]. by intros c []. }
  cbn [Str.rstrip]. destruct (Str.rstrip s) as [|b r] eqn:E.
  - rewrite append_nil in Hs. subst ws.
    destruct (Str.is_space a) eqn:Ha.
    + exists (String a s). split; [done|].
      intros c [<-|H]%occurs_cons; [done|by apply Hws].
    + exists s. by split.
  - exists ws. split; [|done]. rewrite append_cons. by f_equal.
Qed.

Lemma path_div_prefix (p name : string) : path_div p name = dir_prefix p +:+ name.
Proof.
  unfold path_div, dir_prefix.
  destruct (bool_decide (Str.last p = Some "/"%char)); [done|].
  by rewrite append_assoc.
Qed.

(** The omit file of a session is not its coverage database. *)
Lemma conf_file_not_cov_file (cfg : config) (h : host) :
  conf_file_of cfg h ≠ cov_file_of cfg.
Proof.
  unfold conf_file_of, cov_file_of.
  rewrite (path_div_prefix (rootpath cfg) "tests").
  rewrite (path_div_prefix (rootpath cfg) ".coverage").
  set (P := dir_prefix (rootpath cfg)).
  assert (∀ q, path_div (P +:+ "tests") q = P +:+ "tests/" +:+ q) as Htests.
  { intros q. unfold path_div. rewrite last_app_cons.
    rewrite bool_decide_false by discriminate.
    by rewrite !append_assoc. }
  rewrite Htests.
  assert (∀ q, path_div (P +:+ "tests/" +:+ "coverage") q
               = P +:+ "tests/coverage/" +:+ q) as Hcov.
  { intros q. unfold path_div.
    change ("tests/" +:+ "coverage") with "tests/coverage".
    rewrite last_app_cons. rewrite bool_decide_false by discriminate.
    by rewrite !append_assoc. }
  rewrite Hcov. intros H. apply (inj (String.app _)) in H. discriminate H.
Qed.

Lemma fix_coverage_paths_other_paths
    (origin_dir new_dir cov_db tmp path : string) (fs : gmap string content) :
  fs !! tmp = None →
  path ≠ cov_db →
  post (fix_coverage_paths origin_dir new_dir cov_db tmp fs) !! path = fs !! path.
Proof.
  intros Ht Hp. destruct (fs !! cov_db) as [[d|s]|] eqn:Hc.
  - rewrite (fix_coverage_paths_ok _ _ _ _ _ d) by done. cbn [post].
    by rewrite lookup_insert_ne.
  - rewrite (fix_coverage_paths_unparsable _ _ _ _ _ s) by done. cbn [post].
    by rewrite lookup_delete_ne.
  - rewrite fix_coverage_paths_unmovable; [done|done|].
    unfold mv. by rewrite Hc.
Qed.

(** X10: the omit list the hook gives to the HTML report and to the text
    report is the engine's own [run:omit] list followed by one entry for each
    line of [tests/coverage/omit-files-<os>] under the root, as the file
    stands when the hook is called: the line without its trailing white
    space (its line end included).  Without that file the list is
    [run:omit] alone. *)
Theorem sessionfinish_omit_list (cfg : config) (h : host) (st : state) :
  opt_e3 cfg = true →
  opt_cov_source cfg ≠ [] →
  res (pytest_sessionfinish cfg h st) = Ok tt →
  fs st !! tmp_name h = None →
  In (Cov_html_report
        (run_omit h ++ map Str.rstrip (conf_lines (fs st) cfg h)))
     (log (pytest_sessionfinish cfg h st))
  ∧ In (Cov_report
          (run_omit h ++ map Str.rstrip (conf_lines (fs st) cfg h)) 3)
       (log (pytest_sessionfinish cfg h st))
  ∧ Forall (λ line, stripped_of line (Str.rstrip line)) (conf_lines (fs st) cfg h)
  ∧ (fs st !! conf_file_of cfg h = None → conf_lines (fs st) cfg h = []).
Proof.
  intros He3 Hsrc Hres Htmp.
  assert (omitted cfg h (post (pytest_sessionfinish cfg h st))
          = run_omit h ++ map Str.rstrip (conf_lines (fs st) cfg h)) as Homit.
  { assert (fs (post (pytest_sessionfinish cfg h st)) !! conf_file_of cfg h
            = fs st !! conf_file_of cfg h) as Hconf.
    { rewrite pytest_sessionfinish_eq, He3. cbn [negb]. cbv zeta.
      assert (fs (if test_errors st then set_exitstatus 3 st else st) = fs st)
        as Hfs by (by destruct (test_errors st)).
      destruct (opt_cov_source cfg) as [|src srcs]; [done|].
      destruct (opt_e3_cov_rewrite cfg) as [[origin_dir new_dir]|].
      - rewrite Hfs.
        assert (fs (set_fs
                      (post (fix_coverage_paths origin_dir new_dir
                               (path_div (rootpath cfg) ".coverage")
                               (tmp_name h) (fs st)))
                      (if test_errors st then set_exitstatus 3 st else st))
                !! conf_file_of cfg h = fs st !! conf_file_of cfg h) as Hpost.
        { cbn [fs set_fs]. apply fix_coverage_paths_other_paths; [done|].
          apply conf_file_not_cov_file. }
        by destruct (res (fix_coverage_paths _ _ _ _ _)) as [[]|e].
      - cbn [post]. by rewrite Hfs. }
    unfold omitted, conf_lines. fold (conf_file_of cfg h). rewrite Hconf.
    destruct (fs st !! conf_file_of cfg h); [done|].
    cbn. by rewrite app_nil_r. }
  rewrite (sessionfinish_log_eq cfg h st) by done. rewrite Homit.
  split; [|split; [|split]].
  - rewrite !in_app_iff. do 3 right. simpl. tauto.
  - rewrite !in_app_iff. do 3 right. simpl. tauto.
  - apply List.Forall_forall. intros line _. apply rstrip_stripped_of.
  - intros Hnone. unfold conf_lines. by rewrite Hnone.
Qed.

Lemma sessionfinish_omit_list_witness :
  In (Cov_report
        ["setup.py"; "src/e3/os/windows/*"; "src/e3/win32.py"; "doc/conf.py"] 3)
     (log (pytest_sessionfinish cov_config
             {| os_name := "linux"; tmp_name := "/repo/tmpq0";
                run_omit := ["setup.py"] |}
             (import_module
                {[ "/repo/tests/coverage/omit-files-linux"
                   := Text ("src/e3/os/windows/*  " +:+ newline
                            +:+ "src/e3/win32.py"
                            +:+ String "013"%char newline
                            +:+ "doc/conf.py") ]} ∅ ∅ 0))).
Proof.
  destruct (sessionfinish_omit_list cov_config
              {| os_name := "linux"; tmp_name := "/repo/tmpq0";
                 run_omit := ["setup.py"] |}
              (import_module
                 {[ "/repo/tests/coverage/omit-files-linux"
                    := Text ("src/e3/os/windows/*  " +:+ newline
                             +:+ "src/e3/win32.py"
                             +:+ String "013"%char newline
                             +:+ "doc/conf.py") ]} ∅ ∅ 0))
    as (_ & Hrep & _); [by vm_compute ..|].
  exact Hrep.
Defined.

(** ** More on the coverage path rewriter *)

(** X11: whatever the outcome, [fix_coverage_paths] leaves every path other
    than that of the database as it was: the temporary file is gone and no
    other file is created, changed or removed. *)
Theorem fix_coverage_paths_frame
    (origin_dir new_dir cov_db tmp path : string) (fs : gmap string content) :
  fs !! tmp = None →
  path ≠ cov_db →
  post (fix_coverage_paths origin_dir new_dir cov_db tmp fs) !! path = fs !! path.
Proof. intros Ht Hp. by apply fix_coverage_paths_other_paths. Qed.

Lemma fix_coverage_paths_frame_witness :
  post (fix_coverage_paths "/build/pkg" "/src" "/tmp/db" "/tmp/tmpx"
          {[ "/tmp/db" := Text "not a database"; "/tmp/notes" := Text "kept" ]})
    !! "/tmp/notes" = Some (Text "kept").
Proof.
  rewrite (fix_coverage_paths_frame "/build/pkg" "/src" "/tmp/db" "/tmp/tmpx"
             "/tmp/notes") by (by vm_compute).
  by vm_compute.
Defined.

(** X12: when there is no database to move, the error the caller gets is not
    the one of the move: the cleanup fails in its turn on the temporary file,
    which was never created, and the [FileNotFoundError] that names the
    temporary file replaces the error that names the database. *)
Theorem fix_coverage_paths_masks_move_error
    (origin_dir new_dir cov_db tmp : string) (fs : gmap string content) :
  fs !! tmp = None →
  fs !! cov_db = None →
  res (mv cov_db tmp fs) = Raise (FSError "mv" cov_db)
  ∧ res (fix_coverage_paths origin_dir new_dir cov_db tmp fs)
    = Raise (FileNotFoundError tmp).
Proof.
  intros Ht Hc. split; [unfold mv; by rewrite Hc|].
  rewrite fix_coverage_paths_unmovable; [done|done|].
  unfold mv. by rewrite Hc.
Qed.

Lemma fix_coverage_paths_masks_move_error_witness :
  res (fix_coverage_paths "/build/pkg" "/src" "/tmp/db" "/tmp/tmpx" ∅)
  = Raise (FileNotFoundError "/tmp/tmpx").
Proof.
  by destruct (fix_coverage_paths_masks_move_error "/build/pkg" "/src"
                 "/tmp/db" "/tmp/tmpx" ∅) as [_ H].
Defined.

Lemma rewritten_nothing_matches (origin new : string) (d : gmap string (gset nat)) :
  (∀ path, is_Some (d !! path) → Str.startswith path origin = false) →
  rewritten origin new d = d.
Proof.
  intros Hno. apply map_eq; intros key. rewrite rewritten_lookup.
  assert (arriving origin new d key = None) as ->.
  { unfold arriving. destruct (Str.startswith key new); [|done].
    destruct (d !! (origin +:+ _)) as [l|] eqn:E; [|done].
    specialize (Hno _ (mk_is_Some _ _ E)). by rewrite startswith_app in Hno. }
  unfold staying. destruct (Str.startswith key origin) eqn:E.
  - destruct (d !! key) as [l|] eqn:Ek; [|done].
    specialize (Hno _ (mk_is_Some _ _ Ek)). congruence.
  - by destruct (d !! key).
Qed.

(** X13: when no identifier of the database starts with [origin_dir], the
    rewrite changes nothing: it succeeds and the file system, the database
    included, is exactly as before. *)
Theorem fix_coverage_paths_nothing_to_rewrite
    (origin_dir new_dir cov_db tmp : string)
    (fs : gmap string content) (d : gmap string (gset nat)) :
  fs !! tmp = None →
  fs !! cov_db = Some (Database d) →
  (∀ path, is_Some (d !! path) → Str.startswith path origin_dir = false) →
  fix_coverage_paths origin_dir new_dir cov_db tmp fs = Out (Ok tt) fs [].
Proof.
  intros Ht Hc Hno. rewrite (fix_coverage_paths_ok _ _ _ _ _ d) by done.
  rewrite rewritten_nothing_matches by done. by rewrite insert_id.
Qed.

Lemma fix_coverage_paths_nothing_to_rewrite_witness :
  fix_coverage_paths "/build/pkg" "/src" "/tmp/db" "/tmp/tmpx"
    {[ "/tmp/db" := Database {[ "/usr/lib/os.py" := {[7]} ]} ]}
  = Out (Ok tt) {[ "/tmp/db" := Database {[ "/usr/lib/os.py" := {[7]} ]} ]} [].
Proof.
  apply (fix_coverage_paths_nothing_to_rewrite "/build/pkg" "/src" "/tmp/db"
           "/tmp/tmpx" _ {[ "/usr/lib/os.py" := {[7]} ]}); [by vm_compute ..|].
  intros path [l Hl].
  destruct (decide (path = "/usr/lib/os.py")) as [->|Hne]; [by vm_compute|].
  by rewrite lookup_singleton_ne in Hl.
Defined.

(** X14: the rewrite loses and invents nothing: a line is recorded under an
    identifier of the database written exactly when the database read
    records it under an identifier that the rule sends there; and every
    identifier written either does not start with [origin_dir] or starts
    with [new_dir]. *)
Theorem fix_coverage_paths_conserves_lines
    (origin_dir new_dir cov_db tmp : string)
    (fs : gmap string content) (d : gmap string (gset nat)) :
  fs !! tmp = None →
  fs !! cov_db = Some (Database d) →
  ∃ d',
    post (fix_coverage_paths origin_dir new_dir cov_db tmp fs) !! cov_db
    = Some (Database d')
    ∧ (∀ key ln,
         ln ∈ default ∅ (d' !! key)
         ↔ ∃ path lines,
             d !! path = Some lines
             ∧ PathAliases.map (PathAliases.add origin_dir new_dir PathAliases.empty)
                 path = key
             ∧ ln ∈ lines)
    ∧ (∀ key, is_Some (d' !! key) →
         Str.startswith key origin_dir = false ∨ Str.startswith key new_dir = true).
Proof.
  intros Ht Hc. rewrite (fix_coverage_paths_ok _ _ _ _ _ d) by done.
  cbn [post]. exists (rewritten origin_dir new_dir d).
  split; [by rewrite lookup_insert_eq|]. split.
  - intros key ln.
    destruct (update_spec ∅ d
                (PathAliases.add origin_dir new_dir PathAliases.empty) key)
      as [_ Hlines].
    fold (rewritten origin_dir new_dir d) in Hlines.
    rewrite Hlines, lookup_empty. cbn [default from_option id]. split.
    + intros [H|H]; [by apply not_elem_of_empty in H|done].
    + by right.
  - intros key. rewrite rewritten_lookup. unfold staying, arriving.
    destruct (Str.startswith key origin_dir); [|by left].
    destruct (Str.startswith key new_dir); [by right|].
    by intros [? [=]].
Qed.

Lemma fix_coverage_paths_conserves_lines_witness :
  ∃ d',
    post (fix_coverage_paths "/build/pkg" "/src" "/tmp/db" "/tmp/tmpx" mixed_fs)
      !! "/tmp/db" = Some (Database d')
    ∧ (∀ key, is_Some (d' !! key) →
         Str.startswith key "/build/pkg" = false ∨ Str.startswith key "/src" = true).
Proof.
  destruct (fix_coverage_paths_conserves_lines "/build/pkg" "/src" "/tmp/db"
              "/tmp/tmpx" mixed_fs mixed_db) as (d' & Hd' & _ & Hkeys);
    [by vm_compute ..|].
  exists d'. split; [exact Hd' | exact Hkeys].
Defined.

(** ** The conftest of the test suite *)

(** X15: the hooks and the fixture of the plugin do what those of the conftest
    do: the report hook when [RESULTS_DIR] is in the environment what it was
    at import of the conftest, the session-finish hook in a session with the
    e3 option and no coverage source, and the fixture of [require_tool] when
    the [ci] option is what [IN_CI_MODE] is. *)
Theorem plugin_agrees_with_conftest :
  (∀ rep st,
     pytest_runtest_makereport rep st
     = Conftest.pytest_runtest_makereport (environ st !! "RESULTS_DIR") rep st)
  ∧ (∀ cfg h st, opt_e3 cfg = true → opt_cov_source cfg = [] →
       pytest_sessionfinish cfg h st = Conftest.pytest_sessionfinish st)
  ∧ (∀ which prog st,
       require_tool which prog st = Conftest.require_vcs which (IN_CI_MODE st) prog st).
Proof.
  split; [done|]. split.
  - intros cfg h st He3 Hsrc. unfold pytest_sessionfinish. rewrite He3, Hsrc.
    cbn [negb]. unfold Conftest.pytest_sessionfinish, bind, get.
    cbn [res post log].
    destruct (test_errors st); cbn [modify ret res post log app]; done.
  - intros which prog st. rewrite require_tool_eq.
    unfold Conftest.require_vcs.
    destruct (truthy (which prog)); cbn [negb]; [done|].
    by destruct (IN_CI_MODE st).
Qed.

Lemma rstrip_by_last (p : ascii → bool) (s : string) (c : ascii) :
  Str.last (rstrip_by p s) = Some c → p c = false.
Proof.
  revert c. induction s as [|a s IH]; intros c; [done|].
  cbn [rstrip_by]. destruct (rstrip_by p s) as [|b r] eqn:E.
  - destruct (p a) eqn:Ha; [done|]. cbn. by intros [= <-].
  - intros H. apply IH. exact H.
Qed.

Lemma fold_requirements (name : string) (lines : list string)
    (res : gmap string string) :
  fold_left
    (λ res line,
       let line := Conftest.clean line in
       if Str.startswith line "REQ-" then <[name := line]> res else res)
    lines res
  = match last (List.filter (λ line, Str.startswith line "REQ-")
                  (map Conftest.clean lines)) with
    | Some req => <[name := req]> res
    | None => res
    end.
Proof.
  revert res. induction lines as [|line lines IH]; intros res; [done|].
  cbn [fold_left map List.filter]. rewrite IH. cbv zeta.
  destruct (Str.startswith (Conftest.clean line) "REQ-"); [|done].
  rewrite last_cons.
  destruct (last (List.filter _ (map Conftest.clean lines))) as [req|]; [|done].
  apply insert_insert_eq.
Qed.

(** X16: collecting a test records under its name the last line of its
    docstring that, stripped of surrounding white space and then of
    surrounding dots, starts with [REQ-], and leaves the other tests' entries
    alone; nothing is recorded without a report file name, without a
    docstring, or without such a line.  A recorded requirement starts with
    [REQ-] and does not end with a dot. *)
Theorem itemcollected_records_last_requirement
    (it : Conftest.item) (rc : Conftest.RequirementCoverage) :
  Conftest.output_filename (Conftest.pytest_itemcollected it rc)
  = Conftest.output_filename rc
  ∧ Conftest.results (Conftest.pytest_itemcollected it rc)
    = (if Conftest.truthy_opt (Conftest.output_filename rc)
       then match last (requirement_lines (default "" (Conftest.obj_doc it))) with
            | Some req => <[Conftest.obj_name it := req]> (Conftest.results rc)
            | None => Conftest.results rc
            end
       else Conftest.results rc)
  ∧ (∀ doc req, In req (requirement_lines doc) →
       Str.startswith req "REQ-" = true ∧ Str.last req ≠ Some "."%char).
Proof.
  split; [|split].
  - unfold Conftest.pytest_itemcollected.
    by destruct (Conftest.truthy_opt (Conftest.output_filename rc)
                 && Conftest.truthy_opt (Conftest.obj_doc it)).
  - unfold Conftest.pytest_itemcollected, requirement_lines.
    destruct (Conftest.truthy_opt (Conftest.output_filename rc)); [|done].
    cbn [andb].
    destruct (Conftest.obj_doc it) as [doc|] eqn:Hdoc; cbn [Conftest.truthy_opt].
    + destruct (truthy doc) eqn:Ht.
      * cbn [Conftest.results default from_option id]. apply fold_requirements.
      * destruct doc; [done|discriminate Ht].
    + done.
  - intros doc req Hin. unfold requirement_lines in Hin.
    apply filter_In in Hin as [Hin Hreq]. split; [done|].
    apply in_map_iff in Hin as (line & <- & _).
    intros Hlast. unfold Conftest.clean, strip_by in Hlast.
    apply rstrip_by_last in Hlast. discriminate Hlast.
Qed.

Lemma itemcollected_records_last_requirement_witness :
  Conftest.results
    (Conftest.pytest_itemcollected
       (Conftest.Item
          (Some ("Check the rewrite." +:+ newline +:+ newline
                 +:+ "    REQ-EC19." +:+ newline
                 +:+ "    see also REQ-EC1" +:+ newline
                 +:+ "    ..REQ-EC20.. " +:+ newline))
          "test_rewrite")
       {| Conftest.output_filename := Some "req.yaml";
          Conftest.results := {[ "test_other" := "REQ-EC2" ]} |})
  = {[ "test_other" := "REQ-EC2"; "test_rewrite" := "REQ-EC20" ]}.
Proof.
  destruct (itemcollected_records_last_requirement
              (Conftest.Item
                 (Some ("Check the rewrite." +:+ newline +:+ newline
                        +:+ "    REQ-EC19." +:+ newline
                        +:+ "    see also REQ-EC1" +:+ newline
                        +:+ "    ..REQ-EC20.. " +:+ newline))
                 "test_rewrite")
              {| Conftest.output_filename := Some "req.yaml";
                 Conftest.results := {[ "test_other" := "REQ-EC2" ]} |})
    as (_ & -> & _).
  vm_compute. reflexivity.
Defined.

(** ** The [env_protect] fixture *)

(** X17: without the e3 option the fixture does nothing.  With it, the
    environment the test sees has [TZ=UTC], an empty [E3_ENABLE_FEATURE],
    [E3_CONFIG=/dev/null] and no [E3_HOSTNAME], every other variable being
    as before; the working directory is the new temporary directory;
    [Config.data] is empty; and one finalizer is registered, for that
    directory. *)
Theorem env_protect_environment (e3 : bool) (tempd : string) (sb : sandbox) :
  (e3 = false → env_protect e3 tempd sb = sb)
  ∧ (e3 = true →
     sb_environ (env_protect e3 tempd sb) !! "TZ" = Some "UTC"
     ∧ sb_environ (env_protect e3 tempd sb) !! "E3_ENABLE_FEATURE" = Some ""
     ∧ sb_environ (env_protect e3 tempd sb) !! "E3_CONFIG" = Some "/dev/null"
     ∧ sb_environ (env_protect e3 tempd sb) !! "E3_HOSTNAME" = None
     ∧ (∀ var, var ∉ ["TZ"; "E3_ENABLE_FEATURE"; "E3_CONFIG"; "E3_HOSTNAME"] →
          sb_environ (env_protect e3 tempd sb) !! var = sb_environ sb !! var)
     ∧ sb_cwd (env_protect e3 tempd sb) = tempd
     ∧ tempd ∈ sb_dirs (env_protect e3 tempd sb)
     ∧ sb_config_data (env_protect e3 tempd sb) = ∅
     ∧ sb_finalizers (env_protect e3 tempd sb) = tempd :: sb_finalizers sb).
Proof.
  split; [by intros ->|]. intros ->. unfold env_protect. cbv zeta.
  cbn [sb_environ sb_cwd sb_dirs sb_config_data sb_finalizers Env_store].
  set (env := <["E3_CONFIG" := "/dev/null"]> _).
  assert (∀ var, var ≠ "E3_HOSTNAME" →
            (if bool_decide (is_Some (env !! "E3_HOSTNAME"))
             then delete "E3_HOSTNAME" env else env) !! var = env !! var) as Hother.
  { intros var Hvar. destruct (bool_decide _); [|done].
    by rewrite lookup_delete_ne. }
  repeat split.
  - rewrite Hother by done. unfold env.
    rewrite lookup_insert_ne by done. rewrite lookup_insert_ne by done.
    apply lookup_insert_eq.
  - rewrite Hother by done. unfold env.
    rewrite lookup_insert_ne by done. apply lookup_insert_eq.
  - rewrite Hother by done. unfold env. by rewrite lookup_insert_eq.
  - destruct (bool_decide (is_Some (env !! "E3_HOSTNAME"))) eqn:E.
    + apply lookup_delete_eq.
    + apply bool_decide_eq_false in E. by apply eq_None_not_Some.
  - intros var Hvar. rewrite Hother.
    + unfold env.
      rewrite !lookup_insert_ne; [done|..]; intros <-; apply Hvar;
        repeat constructor.
    + intros ->. apply Hvar. repeat constructor.
  - apply elem_of_union_l, elem_of_singleton. done.
Qed.

(** X18: whatever the test does to the environment, the working directory and
    the file system, the finalizer of the fixture puts [os.environ], the
    working directory and the stack of saved environments back as they were
    before the fixture ran, and removes the temporary directory with all it
    holds, leaving the rest of the file system as the test left it.
    [Config.data] and debug logging are not put back. *)
Theorem env_protect_round_trip
    (tempd : string) (sb : sandbox)
    (environ' : gmap string string) (cwd' : string)
    (fs' : gmap string content) (dirs' : gset string)
    (config_data' : gmap string string) :
  let after :=
    restore_env tempd
      (test_body environ' cwd' fs' dirs' config_data' (env_protect true tempd sb)) in
  sb_environ after = sb_environ sb
  ∧ sb_cwd after = sb_cwd sb
  ∧ sb_saved after = sb_saved sb
  ∧ (∀ path, under tempd path = true →
       sb_fs after !! path = None ∧ path ∉ sb_dirs after)
  ∧ (∀ path, under tempd path = false →
       sb_fs after !! path = fs' !! path ∧ (path ∈ sb_dirs after ↔ path ∈ dirs'))
  ∧ sb_config_data after = config_data'
  ∧ sb_debug_log after = true.
Proof.
  cbv zeta. unfold restore_env, test_body, env_protect, Env_store, Env_restore,
    rm_tree.
  cbn [sb_environ sb_cwd sb_fs sb_dirs sb_saved sb_config_data sb_debug_log
       sb_finalizers].
  split; [done|]. split; [done|]. split; [done|]. split; [|split; [|done]].
  - intros path Hunder. split.
    + apply map_lookup_filter_None. right. intros x _. cbn. congruence.
    + rewrite elem_of_filter. intros [H _]. congruence.
  - intros path Hunder. split.
    + destruct (fs' !! path) as [x|] eqn:E.
      * apply map_lookup_filter_Some. by split.
      * apply map_lookup_filter_None. by left.
    + rewrite elem_of_filter. tauto.
Qed.

Lemma env_protect_round_trip_witness :
  sb_environ
    (restore_env "/tmp/tmpab"
       (test_body {[ "HOME" := "/nowhere" ]} "/" 
          {[ "/tmp/tmpab/out.txt" := Text "x"; "/srv/keep" := Text "y" ]}
          {[ "/tmp/tmpab"; "/tmp/tmpab/sub"; "/tmp/tmpabc" ]} ∅
          (env_protect true "/tmp/tmpab"
             (Sandbox {[ "HOME" := "/root"; "E3_HOSTNAME" := "h" ]} "/work" ∅ ∅
                [] ∅ false []))))
  = {[ "HOME" := "/root"; "E3_HOSTNAME" := "h" ]}
  ∧ sb_fs
      (restore_env "/tmp/tmpab"
         (test_body {[ "HOME" := "/nowhere" ]} "/"
            {[ "/tmp/tmpab/out.txt" := Text "x"; "/srv/keep" := Text "y" ]}
            {[ "/tmp/tmpab"; "/tmp/tmpab/sub"; "/tmp/tmpabc" ]} ∅
            (env_protect true "/tmp/tmpab"
               (Sandbox {[ "HOME" := "/root"; "E3_HOSTNAME" := "h" ]} "/work" ∅ ∅
                  [] ∅ false []))))
      !! "/tmp/tmpab/out.txt" = None.
Proof.
  destruct (env_protect_round_trip "/tmp/tmpab"
              (Sandbox {[ "HOME" := "/root"; "E3_HOSTNAME" := "h" ]} "/work" ∅ ∅
                 [] ∅ false [])
              {[ "HOME" := "/nowhere" ]} "/"
              {[ "/tmp/tmpab/out.txt" := Text "x"; "/srv/keep" := Text "y" ]}
              {[ "/tmp/tmpab"; "/tmp/tmpab/sub"; "/tmp/tmpabc" ]} ∅)
    as (Henv & _ & _ & Hgone & _).
  split; [exact Henv|]. apply Hgone. reflexivity.
Defined.

(** ** A session from the reports to the exit status *)

Lemma hook_exitstatus (cfg : config) (h : host) (st : state) :
  exitstatus (post (pytest_sessionfinish cfg h st))
  = (if opt_e3 cfg && test_errors st then 3%Z else exitstatus st).
Proof.
  destruct (sessionfinish_post cfg h st) as (fs' & z & Hpost).
  rewrite pytest_sessionfinish_eq in *.
  destruct (opt_e3 cfg); [|done]. cbn [negb andb] in *. cbv zeta in *.
  assert (exitstatus (if test_errors st then set_exitstatus 3 st else st)
          = if test_errors st then 3%Z else exitstatus st) as Hexit.
  { by destruct (test_errors st). }
  destruct (opt_cov_source cfg) as [|src srcs]; [done|].
  destruct (opt_e3_cov_rewrite cfg) as [[origin_dir new_dir]|]; [|done].
  by destruct (res (fix_coverage_paths _ _ _ _ _)) as [[]|e].
Qed.

Lemma run_hook_keeps_world (c : hook_call) (st : state) :
  own_call c →
  environ (post (run_hook c st)) = environ st
  ∧ dirs (post (run_hook c st)) = dirs st.
Proof.
  destruct c as [rep|cfg h|which toolname|fs' dirs' environ']; [| | |done];
    intros _; cbn [run_hook].
  - destruct (makereport_post rep st) as [fs' ->]. by destruct st.
  - destruct (sessionfinish_post cfg h st) as (fs' & z & ->). by destruct st.
  - by rewrite require_tool_eq.
Qed.

Lemma run_hook_exitstatus (c : hook_call) (st : state) :
  (∀ cfg h, c ≠ Sessionfinish cfg h) →
  exitstatus (post (run_hook c st)) = exitstatus st.
Proof.
  destruct c as [rep|cfg h|which toolname|fs' dirs' environ']; intros Hc;
    cbn [run_hook].
  - destruct (makereport_post rep st) as [fs' ->]. by destruct st.
  - by destruct (Hc cfg h).
  - by rewrite require_tool_eq.
  - done.
Qed.

(** X19: in a session with the e3 option, once a report outside the call
    phase has failed while [RESULTS_DIR] named an existing directory,
    whatever is called afterwards, the session-finish hook leaves the exit
    status at 3. *)
Theorem failed_setup_sets_exit_status
    (rep : report) (cs : list hook_call) (cfg : config) (h : host) (st : state) :
  opt_e3 cfg = true →
  results_dir_ok st = true →
  when rep ≠ "call" →
  outcome rep = "failed" →
  exitstatus (run_hooks (Makereport rep :: cs ++ [Sessionfinish cfg h]) st) = 3%Z.
Proof.
  intros He3 Hdir Hwhen Hout.
  change (Makereport rep :: cs ++ [Sessionfinish cfg h])
    with ((Makereport rep :: cs) ++ [Sessionfinish cfg h]).
  rewrite run_hooks_app. cbn [run_hooks run_hook].
  rewrite hook_exitstatus, He3. cbn [andb].
  rewrite run_hooks_keeps_flag; [done|].
  destruct (run_hook_globals (Makereport rep) st) as [Hflag _].
  cbn [run_hook raises_flag] in Hflag. rewrite Hflag, Hdir, Hout.
  assert (String.eqb (when rep) "call" = false) as ->
    by (by apply String.eqb_neq).
  apply orb_true_r.
Qed.

Lemma failed_setup_sets_exit_status_witness :
  exitstatus
    (run_hooks
       [Makereport (Report "setup" "failed" "tests/test_a.py::test_x" "boom");
        Makereport (Report "call" "passed" "tests/test_a.py::test_y" "");
        Sessionfinish (Config true [] None "/repo") (host_on "linux")]
       (State ∅ {[ "/results" ]} {[ "RESULTS_DIR" := "/results" ]} false false 1))
  = 3%Z.
Proof.
  apply (failed_setup_sets_exit_status
           (Report "setup" "failed" "tests/test_a.py::test_x" "boom")
           [Makereport (Report "call" "passed" "tests/test_a.py::test_y" "")]
           (Config true [] None "/repo") (host_on "linux")
           (State ∅ {[ "/results" ]} {[ "RESULTS_DIR" := "/results" ]} false false 1));
    [reflexivity | reflexivity | discriminate | reflexivity].
Defined.

(** X20: the errors of set-up and tear-down are only seen through the results
    directory: in a session whose [RESULTS_DIR] does not name an existing
    directory when the module is imported, and in which nothing outside the
    module makes it name one (the files, the directories and the environment
    may change otherwise), no report raises the flag and the hooks leave the
    exit status as pytest set it, whatever failed. *)
Theorem errors_unnoticed_without_results_dir
    (cs : list hook_call) (fs0 : gmap string content) (dirs0 : gset string)
    (environ0 : gmap string string) (exitstatus0 : Z) :
  results_dir_ok (import_module fs0 dirs0 environ0 exitstatus0) = false →
  Forall leaves_no_results_dir cs →
  test_errors (run_hooks cs (import_module fs0 dirs0 environ0 exitstatus0)) = false
  ∧ exitstatus (run_hooks cs (import_module fs0 dirs0 environ0 exitstatus0))
    = exitstatus0.
Proof.
  intros Hdir Hown.
  assert (∀ st, results_dir_ok st = false → test_errors st = false →
            test_errors (run_hooks cs st) = false
            ∧ exitstatus (run_hooks cs st) = exitstatus st) as Hgen.
  { induction Hown as [|c cs Hc Hcs IH]; intros st Hd Hf; [done|].
    cbn [run_hooks].
    destruct (run_hook_globals c st) as [Hflag _].
    assert (raises_flag c st = false) as Hr.
    { destruct c; try done. cbn [raises_flag]. by rewrite Hd. }
    rewrite Hr, Hf in Hflag. cbn in Hflag.
    assert (results_dir_ok (post (run_hook c st)) = false) as Hd'.
    { destruct c as [rep|cfg h|which toolname|fs' dirs' environ'].
      - destruct (run_hook_keeps_world (Makereport rep) st I) as [Henv Hdirs].
        unfold results_dir_ok in *. by rewrite Henv, Hdirs.
      - destruct (run_hook_keeps_world (Sessionfinish cfg h) st I)
          as [Henv Hdirs].
        unfold results_dir_ok in *. by rewrite Henv, Hdirs.
      - destruct (run_hook_keeps_world (Fixture which toolname) st I)
          as [Henv Hdirs].
        unfold results_dir_ok in *. by rewrite Henv, Hdirs.
      - exact Hc. }
    destruct (IH _ Hd' Hflag) as [-> ->]. split; [done|].
    destruct c as [rep|cfg h| |]; try (apply run_hook_exitstatus; congruence).
    cbn [run_hook]. rewrite hook_exitstatus, Hf. by rewrite andb_false_r. }
  destruct (Hgen _ Hdir eq_refl) as [-> ->]. done.
Qed.

Lemma errors_unnoticed_without_results_dir_witness :
  test_errors
    (run_hooks
       [Outside {[ "/tmp/log" := Text "started" ]} {[ "/tmp" ]}
          {[ "RESULTS_DIR" := "/results"; "HOME" := "/root" ]};
        Makereport (Report "setup" "failed" "tests/test_a.py::test_x" "boom");
        Outside ∅ {[ "/results" ]} ∅;
        Makereport (Report "teardown" "failed" "tests/test_a.py::test_x" "boom");
        Sessionfinish (Config true [] None "/repo") (host_on "linux")]
       (import_module ∅ ∅ ∅ 1)) = false
  ∧ exitstatus
      (run_hooks
         [Outside {[ "/tmp/log" := Text "started" ]} {[ "/tmp" ]}
            {[ "RESULTS_DIR" := "/results"; "HOME" := "/root" ]};
          Makereport (Report "setup" "failed" "tests/test_a.py::test_x" "boom");
          Outside ∅ {[ "/results" ]} ∅;
          Makereport (Report "teardown" "failed" "tests/test_a.py::test_x" "boom");
          Sessionfinish (Config true [] None "/repo") (host_on "linux")]
         (import_module ∅ ∅ ∅ 1)) = 1%Z.
Proof.
  apply (errors_unnoticed_without_results_dir
           [Outside {[ "/tmp/log" := Text "started" ]} {[ "/tmp" ]}
              {[ "RESULTS_DIR" := "/results"; "HOME" := "/root" ]};
            Makereport (Report "setup" "failed" "tests/test_a.py::test_x" "boom");
            Outside ∅ {[ "/results" ]} ∅;
            Makereport (Report "teardown" "failed" "tests/test_a.py::test_x" "boom");
            Sessionfinish (Config true [] None "/repo") (host_on "linux")]
           ∅ ∅ ∅ 1); [reflexivity|].
  repeat constructor; vm_compute; reflexivity.
Defined.
